(** * AirGuard: the fuzzy-inference classifier of [src/aqi_sensor_app.tsx]

    The development embeds the three stages of the classifier
    (membership evaluation, rule aggregation, defuzzification), the
    presentation lookup [getConditionDetails] and the state, handlers and
    screens of the component, and proves the properties the specification
    states about them together with further properties read off the
    code.

    Numbers.  The source computes on JavaScript numbers; the
    specification states its properties over the reals.  The classifier
    is embedded twice.  The first embedding takes numbers as exact
    rationals [Q], compared up to [Qeq] ([==]): every constant of the
    source is rational and the code only adds, subtracts, divides by
    constants and compares; NaN, the infinities and rounding are outside
    it.  The second embedding, module [Binary64], runs the same code on
    binary64 numbers (primitive floats) with the rounding, NaN and signed
    zeros of JavaScript; the properties that depend on how the difference
    [mq135Raw - baseline] rounds are stated over it.  Where a property of
    the first embedding bounds the deviation strictly, it is stated on
    the deviation once computed ([conditionOfDeviation]), not on the two
    gas values. *)

From Stdlib Require Import QArith Qminmax Lqa List String Ascii Bool PeanoNat NArith Lia.
From Stdlib Require Import Floats.

(** A decimal literal in [float_scope] denotes the nearest binary64 value,
    as it does in JavaScript. *)
Set Warnings "-inexact-float".
Import ListNotations.
Open Scope string_scope.
Open Scope Q_scope.

(** ** JavaScript comparisons and the [Math] functions the source calls *)

Module Js.

(** [x < y], [x > y], [x <= y], [x >= y] as the booleans the source
    branches on. *)
Definition ltb (x y : Q) : bool := negb (Qle_bool y x).
Definition gtb (x y : Q) : bool := ltb y x.
Definition leb (x y : Q) : bool := Qle_bool x y.
Definition geb (x y : Q) : bool := Qle_bool y x.

End Js.

Notation "x <? y" := (Js.ltb x y) (at level 70, no associativity) : Q_scope.
Notation "x >? y" := (Js.gtb x y) (at level 70, no associativity) : Q_scope.
Notation "x <=? y" := (Js.leb x y) (at level 70, no associativity) : Q_scope.
Notation "x >=? y" := (Js.geb x y) (at level 70, no associativity) : Q_scope.

Module Math.

(** [Math.abs(x)]. *)
Definition abs (x : Q) : Q := if x <? 0 then - x else x.

(** [Math.max(x, y1, ..., yn)]: the arguments are scanned from the left
    and the running highest is replaced by every argument greater than
    it.  All calls of the source pass at least two arguments, so the
    first one is kept apart and no empty maximum is needed. *)
Definition max (x : Q) (rest : list Q) : Q :=
  fold_left (fun highest y => if y >? highest then y else highest) rest x.

(** [Math.min(x, y1, ..., yn)], symmetrically. *)
Definition min (x : Q) (rest : list Q) : Q :=
  fold_left (fun lowest y => if y <? lowest then y else lowest) rest x.

End Math.

(** ** Data model: the three membership vectors and the activation vector *)

Module Aqi.
Record scores : Type := mk
  { excellent : Q; good : Q; moderate : Q; poor : Q; hazardous : Q }.

(** Two vectors holding the same numbers. *)
Definition equiv (a b : scores) : Prop :=
  excellent a == excellent b /\ good a == good b /\
  moderate a == moderate b /\ poor a == poor b /\
  hazardous a == hazardous b.
End Aqi.

Module Temp.
Record scores : Type := mk
  { cold : Q; comfortable : Q; warm : Q; hot : Q }.

Definition equiv (a b : scores) : Prop :=
  cold a == cold b /\ comfortable a == comfortable b /\
  warm a == warm b /\ hot a == hot b.
End Temp.

Module Hum.
Record scores : Type := mk
  { dry : Q; comfortable : Q; humid : Q; veryHumid : Q }.

Definition equiv (a b : scores) : Prop :=
  dry a == dry b /\ comfortable a == comfortable b /\
  humid a == humid b /\ veryHumid a == veryHumid b.
End Hum.

Module Cond.
Record scores : Type := mk
  { excellent : Q; good : Q; suitable : Q; moderate : Q; poor : Q;
    hazardous : Q }.

Definition equiv (a b : scores) : Prop :=
  excellent a == excellent b /\ good a == good b /\
  suitable a == suitable b /\ moderate a == moderate b /\
  poor a == poor b /\ hazardous a == hazardous b.
End Cond.

(** ** Membership functions (object [fuzzyLogic] of the source)

    The two arms of every conditional expression the continuity claim is
    about are named, so that they can be evaluated apart at a breakpoint. *)

Module fuzzyLogic.

(** Arms of [moderate]: taken when [30 <= absDeviation < 80], and
    otherwise. *)
Definition moderate_inside (absDeviation : Q) : Q :=
  Math.min 1 [(absDeviation - 30) / 30].
Definition moderate_outside (absDeviation : Q) : Q :=
  Math.max 0 [1 - Math.abs (absDeviation - 65) / 35].

(** Arms of [poor]: taken when [70 <= absDeviation < 150], and otherwise. *)
Definition poor_inside (absDeviation : Q) : Q :=
  Math.min 1 [(absDeviation - 70) / 50].
Definition poor_outside (absDeviation : Q) : Q :=
  Math.max 0 [1 - Math.abs (absDeviation - 120) / 50].

Definition aqiMembership (deviation : Q) : Aqi.scores :=
  let absDeviation := Math.abs deviation in
  {| Aqi.excellent := Math.max 0 [1 - absDeviation / 20];
     Aqi.good :=
       if absDeviation <? 20
       then Math.max 0 [absDeviation / 20]
       else Math.max 0 [1 - (absDeviation - 20) / 30];
     Aqi.moderate :=
       if (absDeviation >=? 30) && (absDeviation <? 80)
       then moderate_inside absDeviation
       else moderate_outside absDeviation;
     Aqi.poor :=
       if (absDeviation >=? 70) && (absDeviation <? 150)
       then poor_inside absDeviation
       else poor_outside absDeviation;
     Aqi.hazardous := Math.min 1 [Math.max 0 [(absDeviation - 130) / 70]] |}.

(** Arms of the temperature [comfortable]: the plateau [1] on
    [18 <= temp <= 26], the arm below 18 and the arm above 26. *)
Definition temp_comfortable_plateau : Q := 1.
Definition temp_comfortable_below (temp : Q) : Q :=
  Math.max 0 [(temp - 10) / 8].
Definition temp_comfortable_above (temp : Q) : Q :=
  Math.max 0 [1 - (temp - 26) / 8].

Definition tempMembership (temp : Q) : Temp.scores :=
  {| Temp.cold := Math.max 0 [1 - (temp - 10) / 10];
     Temp.comfortable :=
       if (temp >=? 18) && (temp <=? 26)
       then temp_comfortable_plateau
       else if temp <? 18
            then temp_comfortable_below temp
            else temp_comfortable_above temp;
     Temp.warm :=
       if (temp >=? 24) && (temp <=? 32)
       then Math.min 1 [(temp - 24) / 4]
       else Math.max 0 [1 - Math.abs (temp - 28) / 8];
     Temp.hot := Math.min 1 [Math.max 0 [(temp - 30) / 10]] |}.

(** Arms of the humidity [comfortable]: the plateau [1] on
    [30 <= humidity <= 60], the arm below 30 and the arm above 60. *)
Definition hum_comfortable_plateau : Q := 1.
Definition hum_comfortable_below (humidity : Q) : Q :=
  Math.max 0 [humidity / 30].
Definition hum_comfortable_above (humidity : Q) : Q :=
  Math.max 0 [1 - (humidity - 60) / 20].

Definition humidityMembership (humidity : Q) : Hum.scores :=
  {| Hum.dry := Math.max 0 [1 - humidity / 30];
     Hum.comfortable :=
       if (humidity >=? 30) && (humidity <=? 60)
       then hum_comfortable_plateau
       else if humidity <? 30
            then hum_comfortable_below humidity
            else hum_comfortable_above humidity;
     Hum.humid :=
       if (humidity >=? 50) && (humidity <=? 80)
       then Math.min 1 [(humidity - 50) / 15]
       else Math.max 0 [1 - Math.abs (humidity - 65) / 25];
     Hum.veryHumid := Math.min 1 [Math.max 0 [(humidity - 70) / 20]] |}.

End fuzzyLogic.

(** ** Rule aggregation (object [conditions] of [getEnvironmentCondition]) *)

Definition conditions
  (aqiScores : Aqi.scores) (tempScores : Temp.scores)
  (humidityScores : Hum.scores) : Cond.scores :=
  {| Cond.excellent :=
       Math.min (Aqi.excellent aqiScores)
         [Temp.comfortable tempScores; Hum.comfortable humidityScores];
     Cond.good :=
       Math.max
         (Math.min (Aqi.good aqiScores) [Temp.comfortable tempScores])
         [Math.min (Aqi.excellent aqiScores)
            [Math.max (Temp.warm tempScores) [Hum.humid humidityScores]]];
     Cond.suitable :=
       Math.max
         (Math.min (Aqi.moderate aqiScores) [Temp.comfortable tempScores])
         [Math.min (Aqi.good aqiScores)
            [Math.max (Temp.warm tempScores) [Temp.cold tempScores]]];
     Cond.moderate :=
       Math.max (Aqi.moderate aqiScores)
         [Math.min (Aqi.good aqiScores)
            [Math.max (Hum.humid humidityScores) [Hum.dry humidityScores]];
          Math.min (Temp.hot tempScores) [Hum.veryHumid humidityScores]];
     Cond.poor :=
       Math.max (Aqi.poor aqiScores)
         [Math.min (Aqi.moderate aqiScores)
            [Math.max (Temp.hot tempScores) [Hum.veryHumid humidityScores]]];
     Cond.hazardous :=
       Math.max (Aqi.hazardous aqiScores)
         [Math.min (Aqi.poor aqiScores)
            [Temp.hot tempScores; Hum.veryHumid humidityScores]] |}.

(** ** The rule set as the specification words it

    Fuzzy AND of k operands is the least of the k values, fuzzy OR the
    greatest.  These definitions follow the specification, not the
    source: they nest the two-argument minimum and maximum of the
    library from the right. *)

Module Spec.

Fixpoint AND (x : Q) (xs : list Q) : Q :=
  match xs with
  | [] => x
  | y :: ys => Qmin x (AND y ys)
  end.

Fixpoint OR (x : Q) (xs : list Q) : Q :=
  match xs with
  | [] => x
  | y :: ys => Qmax x (OR y ys)
  end.

End Spec.

(** ** Defuzzification *)

(** [Object.entries(conditions)]: the key/value pairs in the insertion
    order of the object literal. *)
Definition Object_entries (c : Cond.scores) : list (string * Q) :=
  [ ("excellent", Cond.excellent c);
    ("good", Cond.good c);
    ("suitable", Cond.suitable c);
    ("moderate", Cond.moderate c);
    ("poor", Cond.poor c);
    ("hazardous", Cond.hazardous c) ].

(** The accumulator [{ condition, value }] of the [reduce]. *)
Record best : Type := mkBest { condition : string; value : Q }.

(** The callback of the [reduce]:
    [(max, [key, value]) => value > max.value ? { condition: key, value } : max]. *)
Definition reduce_step (max : best) (entry : string * Q) : best :=
  let (key, v) := entry in
  if v >? value max then {| condition := key; value := v |} else max.

Definition maxCondition (c : Cond.scores) : best :=
  fold_left reduce_step (Object_entries c)
    {| condition := "moderate"; value := 0 |}.

(** The canonical order of the six labels. *)
Definition canonical_order : list string :=
  [ "excellent"; "good"; "suitable"; "moderate"; "poor"; "hazardous" ].

(** Entry number [i] of the activation vector has label [key] and
    strength [v], no activation is greater than [v], and every earlier
    entry is strictly smaller: [key] is the earliest label that carries
    the greatest strength. *)
Definition earliest_maximum
  (c : Cond.scores) (i : nat) (key : string) (v : Q) : Prop :=
  nth_error (Object_entries c) i = Some (key, v) /\
  (forall j e, nth_error (Object_entries c) j = Some e -> snd e <= v) /\
  (forall j e, (j < i)%nat ->
     nth_error (Object_entries c) j = Some e -> snd e < v).

(** The activation vector the pipeline computes for four readings. *)
Definition activations (mq135Raw baseline temp humidity : Q) : Cond.scores :=
  let deviation := mq135Raw - baseline in
  let aqiScores := fuzzyLogic.aqiMembership deviation in
  let tempScores := fuzzyLogic.tempMembership temp in
  let humidityScores := fuzzyLogic.humidityMembership humidity in
  conditions aqiScores tempScores humidityScores.

Definition getEnvironmentCondition
  (mq135Raw baseline temp humidity : Q) : string :=
  condition (maxCondition (activations mq135Raw baseline temp humidity)).


(** [getEnvironmentCondition] from its second statement on: the
    activation vector and the label as functions of the [deviation] that
    its first statement has computed. *)
Definition activationsOfDeviation (deviation temp humidity : Q)
  : Cond.scores :=
  let aqiScores := fuzzyLogic.aqiMembership deviation in
  let tempScores := fuzzyLogic.tempMembership temp in
  let humidityScores := fuzzyLogic.humidityMembership humidity in
  conditions aqiScores tempScores humidityScores.

Definition conditionOfDeviation (deviation temp humidity : Q) : string :=
  condition (maxCondition (activationsOfDeviation deviation temp humidity)).

(** ** Auxiliary notions for the statements *)

(** Two running bests holding the same label and the same number. *)
Definition best_equiv (b b' : best) : Prop :=
  condition b = condition b' /\ value b == value b'.

(** The closed interval [0,1]. *)
Definition unit_interval (x : Q) : Prop := 0 <= x /\ x <= 1.

(** An activation vector the pipeline produces in which all six strengths
    are 0: the gas reading at its baseline, 0 degrees, 30 % humidity. *)
Definition all_zero_reading : Cond.scores := activations 200 200 0 30.

(** A tie between adjacent labels: for a deviation of 10 at 22 degrees and
    45 % humidity, [excellent] and [good] both have strength 1/2, the
    greatest, and [excellent] is returned. *)
Definition tied_reading : Cond.scores := activations 210 200 22 45.

(** ** Presentation lookup

    [details] is an object literal, so [details[condition]] finds the six
    own properties first and then whatever the literal inherits from
    [Object.prototype]; a missing property reads as [undefined].  The
    lookup result is therefore one of: a presentation entry, an inherited
    member of [Object.prototype], or [undefined]. *)

Module Presentation.

Record entry : Type := mkEntry
  { label : string; color : string; textColor : string; bgColor : string;
    message : string }.

Inductive jsvalue : Type :=
| Entry (e : entry)
| Inherited (name : string)
| Undefined.

(** The object literal [details], in source order. *)
Definition details : list (string * entry) :=
  [ ("excellent",
     {| label := "Excellent"; color := "from-green-500 to-emerald-500";
        textColor := "text-green-600"; bgColor := "bg-green-50";
        message := "Perfect air quality and climate conditions" |});
    ("good",
     {| label := "Good"; color := "from-blue-500 to-cyan-500";
        textColor := "text-blue-600"; bgColor := "bg-blue-50";
        message := "Air quality is acceptable and conditions are pleasant" |});
    ("suitable",
     {| label := "Suitable"; color := "from-teal-500 to-green-500";
        textColor := "text-teal-600"; bgColor := "bg-teal-50";
        message := "Conditions are acceptable for most activities" |});
    ("moderate",
     {| label := "Moderate"; color := "from-yellow-500 to-orange-400";
        textColor := "text-yellow-700"; bgColor := "bg-yellow-50";
        message := "Acceptable but may affect sensitive individuals" |});
    ("poor",
     {| label := "Poor"; color := "from-orange-500 to-red-500";
        textColor := "text-orange-600"; bgColor := "bg-orange-50";
        message := "Consider limiting outdoor exposure" |});
    ("hazardous",
     {| label := "Hazardous"; color := "from-red-600 to-red-800";
        textColor := "text-red-700"; bgColor := "bg-red-50";
        message := "Health warning! Avoid outdoor activities" |}) ].

(** The property names of [Object.prototype] (ECMAScript, with the
    legacy accessors of Annex B), which every object literal inherits. *)
Definition Object_prototype : list string :=
  [ "constructor"; "hasOwnProperty"; "isPrototypeOf";
    "propertyIsEnumerable"; "toLocaleString"; "toString"; "valueOf";
    "__proto__"; "__defineGetter__"; "__defineSetter__";
    "__lookupGetter__"; "__lookupSetter__" ].

(** Own property of an object literal. *)
Fixpoint own (o : list (string * entry)) (key : string) : option entry :=
  match o with
  | [] => None
  | (k, e) :: rest => if String.eqb k key then Some e else own rest key
  end.

(** [o[key]]: own property, else the prototype chain, else [undefined]. *)
Definition get (o : list (string * entry)) (key : string) : jsvalue :=
  match own o key with
  | Some e => Entry e
  | None =>
      if existsb (String.eqb key) Object_prototype
      then Inherited key
      else Undefined
  end.

(** [ToBoolean]: objects and functions are truthy, [undefined] is not. *)
Definition truthy (v : jsvalue) : bool :=
  match v with
  | Undefined => false
  | Entry _ | Inherited _ => true
  end.

(** [a || b]. *)
Definition or (a b : jsvalue) : jsvalue := if truthy a then a else b.

Definition getConditionDetails (condition : string) : jsvalue :=
  or (get details condition) (get details "moderate").

(** The six recognized condition labels. *)
Definition recognized : list string :=
  [ "excellent"; "good"; "suitable"; "moderate"; "poor"; "hazardous" ].

End Presentation.

(** ** The component: state, handlers and screens

    The state of [AQISensorApp] is the six [useState] cells.  Each handler
    is embedded as the state it leaves once its setters have been
    applied; the screen is a function of the state. *)

Module JsString.

(** A JavaScript string is its sequence of UTF-16 code units. *)
Definition t : Type := list N.

Definition of_ascii (s : string) : t :=
  map Ascii.N_of_ascii (list_ascii_of_string s).

(** The code units [String.prototype.trim] strips: WhiteSpace (TAB, VT,
    FF, SP, NBSP, ZWNBSP and the space separators) and LineTerminator
    (LF, CR, LS, PS). *)
Definition isWhiteSpace (c : N) : bool :=
  existsb (N.eqb c)
    [9; 10; 11; 12; 13; 32; 160; 5760; 8232; 8233; 8239; 8287; 12288;
     65279]%N
  || (N.leb 8192 c && N.leb c 8202).

Fixpoint trimStart (s : t) : t :=
  match s with
  | [] => []
  | c :: rest => if isWhiteSpace c then trimStart rest else s
  end.

Definition trimEnd (s : t) : t := rev (trimStart (rev s)).

Definition trim (s : t) : t := trimEnd (trimStart s).

(** [ToBoolean] of a string: only the empty string is falsy. *)
Definition truthy (s : t) : bool :=
  match s with
  | [] => false
  | _ :: _ => true
  end.

End JsString.

Module App.

Record SensorData : Type := mkData
  { mq135 : Q; baseline : Q; deviation : Q; temperature : Q; humidity : Q }.

Record state : Type := mkState
  { data : option SensorData;
    connected : bool;
    error : option string;
    ipAddress : JsString.t;
    inputIp : JsString.t;
    isConfigured : bool }.

(** The initial values of the [useState] cells. *)
Definition initial : state :=
  {| data := None; connected := false; error := None; ipAddress := [];
     inputIp := JsString.of_ascii "192.168.4.1"; isConfigured := false |}.

Definition simulatedData : SensorData :=
  {| mq135 := 306; baseline := 200; deviation := 106;
     temperature := 26.70; humidity := 52.00 |}.

(** [fetchSensorData]: the [try] block builds a literal and calls three
    setters, none of which throws, so the [catch] arm is never entered. *)
Definition fetchSensorData (s : state) : state :=
  {| data := Some simulatedData; connected := true; error := None;
     ipAddress := ipAddress s; inputIp := inputIp s;
     isConfigured := isConfigured s |}.

Definition handleIpChange (s : state) : state :=
  if JsString.truthy (JsString.trim (inputIp s))
  then {| data := None; connected := false; error := None;
          ipAddress := inputIp s; inputIp := inputIp s;
          isConfigured := true |}
  else s.

Definition handleReconfigure (s : state) : state :=
  {| data := None; connected := false; error := None;
     ipAddress := ipAddress s; inputIp := inputIp s;
     isConfigured := false |}.

(** [onChange] of the address field: [setInputIp(e.target.value)]. *)
Definition setInputIp (v : JsString.t) (s : state) : state :=
  {| data := data s; connected := connected s; error := error s;
     ipAddress := ipAddress s; inputIp := v;
     isConfigured := isConfigured s |}.

(** [onKeyPress]: [e.key === 'Enter' && handleIpChange()]. *)
Definition onKeyPress (key : string) (s : state) : state :=
  if String.eqb key "Enter" then handleIpChange s else s.

(** The body of the [useEffect]: the immediate [fetchSensorData()] under
    the guard [isConfigured && ipAddress].  The interval it also starts
    calls [fetchSensorData] again later (event [Fetch] below). *)
Definition effect (s : state) : state :=
  if isConfigured s && JsString.truthy (ipAddress s)
  then fetchSensorData s
  else s.

(** What the component returns: the setup form with the typed address,
    the connecting screen with the address, or the dashboard with the
    presentation entry, the connection badge (the address when connected,
    nothing for "Disconnected"), the sign put before the deviation and
    the error banner ([error && ...]: shown for a non-empty message).
    The numbers the dashboard prints are left out of the view. *)
Inductive view : Type :=
| SetupView (typed : JsString.t)
| ConnectingView (ip : JsString.t)
| DashboardView (conditionDetails : Presentation.jsvalue)
    (badge : option JsString.t) (sign : string) (banner : option string).

Definition render (s : state) : view :=
  if negb (isConfigured s) then SetupView (inputIp s)
  else
    match data s with
    | None => ConnectingView (ipAddress s)
    | Some d =>
        let condition :=
          getEnvironmentCondition (mq135 d) (baseline d) (temperature d)
            (humidity d) in
        let conditionDetails := Presentation.getConditionDetails condition in
        DashboardView conditionDetails
          (if connected s then Some (ipAddress s) else None)
          (if deviation d >? 0 then "+" else "")
          (match error s with
           | Some msg => if String.eqb msg "" then None else Some msg
           | None => None
           end)
    end.

(** Everything that changes the state: typing, a key press, the two
    buttons, and a call of [fetchSensorData] by the effect or its
    interval. *)
Inductive event : Type :=
| Change (v : JsString.t)
| KeyPress (key : string)
| ClickConnect
| ClickReconfigure
| Fetch.

Definition handle (s : state) (e : event) : state :=
  match e with
  | Change v => setInputIp v s
  | KeyPress key => onKeyPress key s
  | ClickConnect => handleIpChange s
  | ClickReconfigure => handleReconfigure s
  | Fetch => fetchSensorData s
  end.

(** The state after a sequence of events, taken in any order. *)
Definition run (s : state) (es : list event) : state := fold_left handle es s.

End App.

(** What every handler preserves: no error is recorded, the connection
    flag is set exactly when a reading is held, a held reading is the
    simulated one, and a configured component has an address that does
    not trim to the empty string. *)
Definition invariant (s : App.state) : Prop :=
  App.error s = None /\
  App.connected s = match App.data s with Some _ => true | None => false end /\
  (App.data s = None \/ App.data s = Some App.simulatedData) /\
  (App.isConfigured s = true ->
   JsString.truthy (JsString.trim (App.ipAddress s)) = true).

(** ** The classifier on binary64 numbers

    The same code as above, operation for operation, on the numbers
    JavaScript computes with: every [+], [-] and [/] rounds to the nearest
    binary64 value, comparisons with NaN are false. *)

Module Binary64.

Local Open Scope float_scope.

(** [+0] and [-0], which [Math.max] and [Math.min] tell apart. *)
Definition isPositiveZero (x : float) : bool :=
  match classify x with
  | PZero => true
  | _ => false
  end.

Definition isNegativeZero (x : float) : bool :=
  match classify x with
  | NZero => true
  | _ => false
  end.

Module Math.

Definition abs (x : float) : float := PrimFloat.abs x.

(** [Math.max(...args)]: NaN as soon as an argument is NaN; otherwise the
    arguments are scanned from [-Infinity], the running highest being
    replaced by a greater argument, and by [+0] when it is [-0]. *)
Definition max (args : list float) : float :=
  if existsb is_nan args then nan
  else
    fold_left
      (fun highest number =>
         if (isPositiveZero number && isNegativeZero highest)
            || (highest <? number)
         then number else highest)
      args neg_infinity.

(** [Math.min(...args)], symmetrically from [+Infinity]. *)
Definition min (args : list float) : float :=
  if existsb is_nan args then nan
  else
    fold_left
      (fun lowest number =>
         if (isNegativeZero number && isPositiveZero lowest)
            || (number <? lowest)
         then number else lowest)
      args infinity.

End Math.

Module Aqi.
Record scores : Type := mk
  { excellent : float; good : float; moderate : float; poor : float;
    hazardous : float }.
End Aqi.

Module Temp.
Record scores : Type := mk
  { cold : float; comfortable : float; warm : float; hot : float }.
End Temp.

Module Hum.
Record scores : Type := mk
  { dry : float; comfortable : float; humid : float; veryHumid : float }.
End Hum.

Module Cond.
Record scores : Type := mk
  { excellent : float; good : float; suitable : float; moderate : float;
    poor : float; hazardous : float }.
End Cond.

Module fuzzyLogic.

Definition aqiMembership (deviation : float) : Aqi.scores :=
  let absDeviation := Math.abs deviation in
  {| Aqi.excellent := Math.max [0; 1 - absDeviation / 20];
     Aqi.good :=
       if absDeviation <? 20
       then Math.max [0; absDeviation / 20]
       else Math.max [0; 1 - (absDeviation - 20) / 30];
     Aqi.moderate :=
       if (30 <=? absDeviation) && (absDeviation <? 80)
       then Math.min [1; (absDeviation - 30) / 30]
       else Math.max [0; 1 - Math.abs (absDeviation - 65) / 35];
     Aqi.poor :=
       if (70 <=? absDeviation) && (absDeviation <? 150)
       then Math.min [1; (absDeviation - 70) / 50]
       else Math.max [0; 1 - Math.abs (absDeviation - 120) / 50];
     Aqi.hazardous := Math.min [1; Math.max [0; (absDeviation - 130) / 70]] |}.

Definition tempMembership (temp : float) : Temp.scores :=
  {| Temp.cold := Math.max [0; 1 - (temp - 10) / 10];
     Temp.comfortable :=
       if (18 <=? temp) && (temp <=? 26)
       then 1
       else if temp <? 18
            then Math.max [0; (temp - 10) / 8]
            else Math.max [0; 1 - (temp - 26) / 8];
     Temp.warm :=
       if (24 <=? temp) && (temp <=? 32)
       then Math.min [1; (temp - 24) / 4]
       else Math.max [0; 1 - Math.abs (temp - 28) / 8];
     Temp.hot := Math.min [1; Math.max [0; (temp - 30) / 10]] |}.

Definition humidityMembership (humidity : float) : Hum.scores :=
  {| Hum.dry := Math.max [0; 1 - humidity / 30];
     Hum.comfortable :=
       if (30 <=? humidity) && (humidity <=? 60)
       then 1
       else if humidity <? 30
            then Math.max [0; humidity / 30]
            else Math.max [0; 1 - (humidity - 60) / 20];
     Hum.humid :=
       if (50 <=? humidity) && (humidity <=? 80)
       then Math.min [1; (humidity - 50) / 15]
       else Math.max [0; 1 - Math.abs (humidity - 65) / 25];
     Hum.veryHumid := Math.min [1; Math.max [0; (humidity - 70) / 20]] |}.

End fuzzyLogic.

Definition conditions
  (aqiScores : Aqi.scores) (tempScores : Temp.scores)
  (humidityScores : Hum.scores) : Cond.scores :=
  {| Cond.excellent :=
       Math.min [Aqi.excellent aqiScores; Temp.comfortable tempScores;
                 Hum.comfortable humidityScores];
     Cond.good :=
       Math.max
         [Math.min [Aqi.good aqiScores; Temp.comfortable tempScores];
          Math.min [Aqi.excellent aqiScores;
                    Math.max [Temp.warm tempScores; Hum.humid humidityScores]]];
     Cond.suitable :=
       Math.max
         [Math.min [Aqi.moderate aqiScores; Temp.comfortable tempScores];
          Math.min [Aqi.good aqiScores;
                    Math.max [Temp.warm tempScores; Temp.cold tempScores]]];
     Cond.moderate :=
       Math.max
         [Aqi.moderate aqiScores;
          Math.min [Aqi.good aqiScores;
                    Math.max [Hum.humid humidityScores; Hum.dry humidityScores]];
          Math.min [Temp.hot tempScores; Hum.veryHumid humidityScores]];
     Cond.poor :=
       Math.max
         [Aqi.poor aqiScores;
          Math.min [Aqi.moderate aqiScores;
                    Math.max [Temp.hot tempScores;
                              Hum.veryHumid humidityScores]]];
     Cond.hazardous :=
       Math.max
         [Aqi.hazardous aqiScores;
          Math.min [Aqi.poor aqiScores; Temp.hot tempScores;
                    Hum.veryHumid humidityScores]] |}.

Definition Object_entries (c : Cond.scores) : list (string * float) :=
  [ ("excellent", Cond.excellent c);
    ("good", Cond.good c);
    ("suitable", Cond.suitable c);
    ("moderate", Cond.moderate c);
    ("poor", Cond.poor c);
    ("hazardous", Cond.hazardous c) ].

Record best : Type := mkBest { condition : string; value : float }.

(** [value > max.value ? { condition: key, value } : max]; the comparison
    is false when either side is NaN. *)
Definition reduce_step (max : best) (entry : string * float) : best :=
  let (key, v) := entry in
  if value max <? v then {| condition := key; value := v |} else max.

Definition maxCondition (c : Cond.scores) : best :=
  fold_left reduce_step (Object_entries c)
    {| condition := "moderate"; value := 0 |}.

Definition activations (mq135Raw baseline temp humidity : float)
  : Cond.scores :=
  let deviation := mq135Raw - baseline in
  let aqiScores := fuzzyLogic.aqiMembership deviation in
  let tempScores := fuzzyLogic.tempMembership temp in
  let humidityScores := fuzzyLogic.humidityMembership humidity in
  conditions aqiScores tempScores humidityScores.

Definition getEnvironmentCondition
  (mq135Raw baseline temp humidity : float) : string :=
  condition (maxCondition (activations mq135Raw baseline temp humidity)).

End Binary64.

(** * Properties *)

(** ** Comparisons decide the order *)

Lemma ltb_spec (x y : Q) : reflect (x < y) (x <? y).
Proof.
  unfold Js.ltb. destruct (Qle_bool y x) eqn:E; simpl; constructor.
  - apply Qle_bool_iff in E. lra.
  - destruct (Qlt_le_dec x y) as [H | H]; [exact H |].
    apply Qle_bool_iff in H. congruence.
Qed.

Lemma gtb_spec (x y : Q) : reflect (y < x) (x >? y).
Proof. apply ltb_spec. Qed.

Lemma leb_spec (x y : Q) : reflect (x <= y) (x <=? y).
Proof.
  unfold Js.leb. destruct (Qle_bool x y) eqn:E; constructor.
  - now apply Qle_bool_iff.
  - intros H. apply Qle_bool_iff in H. congruence.
Qed.

Lemma geb_spec (x y : Q) : reflect (y <= x) (x >=? y).
Proof. apply leb_spec. Qed.

(** Case analysis on every comparison the goal branches on, innermost
    comparisons first. *)
Ltac branch_free t :=
  lazymatch t with
  | context [if _ then _ else _] => fail
  | _ => idtac
  end.

Ltac js_cases :=
  repeat match goal with
  | |- context [?x <? ?y] =>
      branch_free x; branch_free y; destruct (ltb_spec x y); cbv iota
  | |- context [?x >? ?y] =>
      branch_free x; branch_free y; destruct (gtb_spec x y); cbv iota
  | |- context [?x <=? ?y] =>
      branch_free x; branch_free y; destruct (leb_spec x y); cbv iota
  | |- context [?x >=? ?y] =>
      branch_free x; branch_free y; destruct (geb_spec x y); cbv iota
  end.

Ltac js_unfold :=
  cbv [Math.abs Math.max Math.min fold_left].

(** [lra] reads a division by a constant once it is a product. *)
Ltac q_normalise :=
  unfold Qdiv in *; cbn [Qinv Qnum Qden andb orb negb] in *.

Ltac js_arith := js_unfold; js_cases; q_normalise; try lra.

(** ** Functions respect equality of rationals *)

Lemma ltb_compat x x' y y' : x == x' -> y == y' -> (x <? y) = (x' <? y').
Proof. intros Hx Hy. unfold Js.ltb. now rewrite Hx, Hy. Qed.

Lemma gtb_compat x x' y y' : x == x' -> y == y' -> (x >? y) = (x' >? y').
Proof. intros Hx Hy. now apply ltb_compat. Qed.

Lemma leb_compat x x' y y' : x == x' -> y == y' -> (x <=? y) = (x' <=? y').
Proof. intros Hx Hy. unfold Js.leb. now rewrite Hx, Hy. Qed.

Lemma geb_compat x x' y y' : x == x' -> y == y' -> (x >=? y) = (x' >=? y').
Proof. intros Hx Hy. now apply leb_compat. Qed.

Lemma if_compat (b b' : bool) (x x' y y' : Q) :
  b = b' -> x == x' -> y == y' ->
  (if b then x else y) == (if b' then x' else y').
Proof. intros -> Hx Hy. now destruct b'. Qed.

Lemma abs_compat x x' : x == x' -> Math.abs x == Math.abs x'.
Proof.
  intros H. unfold Math.abs. apply if_compat.
  - now apply ltb_compat.
  - now rewrite H.
  - exact H.
Qed.

Lemma max_compat x x' l l' :
  x == x' -> Forall2 Qeq l l' -> Math.max x l == Math.max x' l'.
Proof.
  intros Hx Hl. revert x x' Hx. unfold Math.max.
  induction Hl as [| y y' l l' Hy _ IH]; intros x x' Hx; simpl.
  - exact Hx.
  - apply IH. apply if_compat; auto using gtb_compat.
Qed.

Lemma min_compat x x' l l' :
  x == x' -> Forall2 Qeq l l' -> Math.min x l == Math.min x' l'.
Proof.
  intros Hx Hl. revert x x' Hx. unfold Math.min.
  induction Hl as [| y y' l l' Hy _ IH]; intros x x' Hx; simpl.
  - exact Hx.
  - apply IH. apply if_compat; auto using ltb_compat.
Qed.

(** Structural proof that two expressions built alike from equal parts are
    equal. *)
Ltac compat :=
  repeat first
    [ assumption
    | reflexivity
    | apply if_compat
    | apply max_compat
    | apply min_compat
    | apply abs_compat
    | apply Forall2_nil
    | apply Forall2_cons
    | apply ltb_compat
    | apply gtb_compat
    | apply leb_compat
    | apply geb_compat
    | apply (f_equal2 andb)
    | apply Qplus_comp
    | apply Qminus_comp
    | apply Qdiv_comp
    | apply Qopp_comp ].

Lemma aqiMembership_compat d d' :
  d == d' ->
  Aqi.equiv (fuzzyLogic.aqiMembership d) (fuzzyLogic.aqiMembership d').
Proof.
  intros H. unfold Aqi.equiv, fuzzyLogic.aqiMembership; simpl.
  unfold fuzzyLogic.moderate_inside, fuzzyLogic.moderate_outside,
    fuzzyLogic.poor_inside, fuzzyLogic.poor_outside.
  repeat split; compat.
Qed.

Lemma conditions_compat a a' t t' h h' :
  Aqi.equiv a a' -> Temp.equiv t t' -> Hum.equiv h h' ->
  Cond.equiv (conditions a t h) (conditions a' t' h').
Proof.
  intros (?&?&?&?&?) (?&?&?&?) (?&?&?&?).
  unfold Cond.equiv, conditions; simpl. repeat split; compat.
Qed.

Lemma equiv_refl_temp t : Temp.equiv t t.
Proof. unfold Temp.equiv. repeat split; reflexivity. Qed.

Lemma equiv_refl_hum h : Hum.equiv h h.
Proof. unfold Hum.equiv. repeat split; reflexivity. Qed.

(** The activation vector depends on the two gas readings through their
    difference only. *)
Lemma activations_compat raw base raw' base' t h :
  raw - base == raw' - base' ->
  Cond.equiv (activations raw base t h) (activations raw' base' t h).
Proof.
  intros H. unfold activations.
  apply conditions_compat;
    auto using aqiMembership_compat, equiv_refl_temp, equiv_refl_hum.
Qed.

Lemma reduce_step_compat b b' key v v' :
  best_equiv b b' -> v == v' ->
  best_equiv (reduce_step b (key, v)) (reduce_step b' (key, v')).
Proof.
  intros [Hc Hv] H. unfold reduce_step.
  rewrite (gtb_compat v v' (value b) (value b') H Hv).
  destruct (v' >? value b'); [split; simpl; auto | split; auto].
Qed.

Lemma maxCondition_compat c c' :
  Cond.equiv c c' -> best_equiv (maxCondition c) (maxCondition c').
Proof.
  intros (?&?&?&?&?&?). unfold maxCondition, Object_entries.
  cbv [fold_left]. repeat apply reduce_step_compat; try assumption.
  split; reflexivity.
Qed.

Lemma getEnvironmentCondition_compat raw base raw' base' t h :
  raw - base == raw' - base' ->
  getEnvironmentCondition raw base t h =
  getEnvironmentCondition raw' base' t h.
Proof.
  intros H. unfold getEnvironmentCondition.
  apply maxCondition_compat, activations_compat, H.
Qed.

(** [Math.abs] forgets the sign. *)
Lemma abs_opp x : Math.abs (- x) == Math.abs x.
Proof. unfold Math.abs. js_cases; lra. Qed.

Lemma abs_nonneg x : 0 <= Math.abs x.
Proof. unfold Math.abs. js_cases; lra. Qed.

Lemma aqiMembership_abs d :
  Aqi.equiv (fuzzyLogic.aqiMembership (Math.abs d))
            (fuzzyLogic.aqiMembership d).
Proof.
  unfold Aqi.equiv, fuzzyLogic.aqiMembership; simpl.
  unfold fuzzyLogic.moderate_inside, fuzzyLogic.moderate_outside,
    fuzzyLogic.poor_inside, fuzzyLogic.poor_outside.
  assert (H : Math.abs (Math.abs d) == Math.abs d).
  { unfold Math.abs. js_cases; lra. }
  repeat split; compat.
Qed.

Lemma aqi_equiv_trans a b c : Aqi.equiv a b -> Aqi.equiv b c -> Aqi.equiv a c.
Proof.
  intros (?&?&?&?&?) (?&?&?&?&?). unfold Aqi.equiv.
  repeat split; etransitivity; eassumption.
Qed.

Lemma aqi_equiv_sym a b : Aqi.equiv a b -> Aqi.equiv b a.
Proof.
  intros (?&?&?&?&?). unfold Aqi.equiv. repeat split; symmetry; assumption.
Qed.

(** The AQI vector of a deviation and of its opposite are the same. *)
Lemma aqiMembership_opp d :
  Aqi.equiv (fuzzyLogic.aqiMembership (- d)) (fuzzyLogic.aqiMembership d).
Proof.
  apply aqi_equiv_trans with (fuzzyLogic.aqiMembership (Math.abs d)).
  - apply aqi_equiv_trans with (fuzzyLogic.aqiMembership (Math.abs (- d))).
    + apply aqi_equiv_sym, aqiMembership_abs.
    + apply aqiMembership_compat, abs_opp.
  - apply aqiMembership_abs.
Qed.

(** ** Ranges of the membership degrees and of the activations *)

Lemma aqiMembership_range d :
  let a := fuzzyLogic.aqiMembership d in
  unit_interval (Aqi.excellent a) /\ unit_interval (Aqi.good a) /\
  unit_interval (Aqi.moderate a) /\ unit_interval (Aqi.poor a) /\
  unit_interval (Aqi.hazardous a).
Proof.
  unfold fuzzyLogic.aqiMembership; simpl.
  unfold fuzzyLogic.moderate_inside, fuzzyLogic.moderate_outside,
    fuzzyLogic.poor_inside, fuzzyLogic.poor_outside, unit_interval.
  pose proof (abs_nonneg d) as Hd. generalize dependent (Math.abs d).
  intros a Ha. repeat split; js_arith.
Qed.

(** The temperature degrees: all are non-negative, and all but [cold] are
    at most 1.  [cold] has no upper clamp. *)
Lemma tempMembership_range temp :
  let t := fuzzyLogic.tempMembership temp in
  0 <= Temp.cold t /\ unit_interval (Temp.comfortable t) /\
  unit_interval (Temp.warm t) /\ unit_interval (Temp.hot t).
Proof.
  unfold fuzzyLogic.tempMembership; simpl.
  unfold fuzzyLogic.temp_comfortable_plateau,
    fuzzyLogic.temp_comfortable_below, fuzzyLogic.temp_comfortable_above,
    unit_interval.
  repeat split; js_arith.
Qed.

(** The humidity degrees: all are non-negative, and all but [dry] are at
    most 1.  [dry] has no upper clamp. *)
Lemma humidityMembership_range humidity :
  let h := fuzzyLogic.humidityMembership humidity in
  0 <= Hum.dry h /\ unit_interval (Hum.comfortable h) /\
  unit_interval (Hum.humid h) /\ unit_interval (Hum.veryHumid h).
Proof.
  unfold fuzzyLogic.humidityMembership; simpl.
  unfold fuzzyLogic.hum_comfortable_plateau,
    fuzzyLogic.hum_comfortable_below, fuzzyLogic.hum_comfortable_above,
    unit_interval.
  repeat split; js_arith.
Qed.

(** [cold] stays within [0,1] from 10 degrees upwards, [dry] for
    non-negative humidity. *)
Lemma cold_range temp :
  10 <= temp -> unit_interval (Temp.cold (fuzzyLogic.tempMembership temp)).
Proof. intros H. unfold unit_interval; simpl. split; js_arith. Qed.

Lemma dry_range humidity :
  0 <= humidity ->
  unit_interval (Hum.dry (fuzzyLogic.humidityMembership humidity)).
Proof. intros H. unfold unit_interval; simpl. split; js_arith. Qed.

(** The rules keep the activations within [0,1] as soon as the AQI degrees
    are, whatever the (non-negative) temperature and humidity degrees. *)
Lemma conditions_range a t h :
  unit_interval (Aqi.excellent a) -> unit_interval (Aqi.good a) ->
  unit_interval (Aqi.moderate a) -> unit_interval (Aqi.poor a) ->
  unit_interval (Aqi.hazardous a) ->
  0 <= Temp.cold t -> 0 <= Temp.comfortable t -> 0 <= Temp.warm t ->
  unit_interval (Temp.hot t) ->
  0 <= Hum.dry h -> 0 <= Hum.comfortable h -> 0 <= Hum.humid h ->
  unit_interval (Hum.veryHumid h) ->
  let c := conditions a t h in
  unit_interval (Cond.excellent c) /\ unit_interval (Cond.good c) /\
  unit_interval (Cond.suitable c) /\ unit_interval (Cond.moderate c) /\
  unit_interval (Cond.poor c) /\ unit_interval (Cond.hazardous c).
Proof.
  unfold unit_interval. destruct a, t, h; simpl.
  intros [? ?] [? ?] [? ?] [? ?] [? ?] ? ? ? [? ?] ? ? ? [? ?].
  repeat split; js_arith.
Qed.

Lemma activations_range raw base temp humidity :
  let c := activations raw base temp humidity in
  unit_interval (Cond.excellent c) /\ unit_interval (Cond.good c) /\
  unit_interval (Cond.suitable c) /\ unit_interval (Cond.moderate c) /\
  unit_interval (Cond.poor c) /\ unit_interval (Cond.hazardous c).
Proof.
  unfold activations.
  destruct (aqiMembership_range (raw - base)) as (?&?&?&?&?).
  destruct (tempMembership_range temp) as (?&[? _]&[? _]&?).
  destruct (humidityMembership_range humidity) as (?&[? _]&[? _]&?).
  now apply conditions_range.
Qed.

(** ** The source's [Math.min] and [Math.max] are the specification's AND
    and OR *)

Lemma AND_lower_bound x xs : Forall (fun y => Spec.AND x xs <= y) (x :: xs).
Proof.
  revert x. induction xs as [| y ys IH]; intros x; simpl.
  - constructor; [lra | constructor].
  - constructor; [apply Q.le_min_l |].
    eapply Forall_impl; [| apply IH]. simpl. intros z Hz.
    eapply Qle_trans; [apply Q.le_min_r | exact Hz].
Qed.

Lemma AND_attained x xs : Exists (fun y => Spec.AND x xs == y) (x :: xs).
Proof.
  revert x. induction xs as [| y ys IH]; intros x; simpl.
  - left. reflexivity.
  - destruct (Q.min_spec x (Spec.AND y ys)) as [[_ E] | [_ E]].
    + left. exact E.
    + right. eapply Exists_impl; [| apply IH]. simpl. intros z Hz.
      now rewrite E.
Qed.

Lemma OR_upper_bound x xs : Forall (fun y => y <= Spec.OR x xs) (x :: xs).
Proof.
  revert x. induction xs as [| y ys IH]; intros x; simpl.
  - constructor; [lra | constructor].
  - constructor; [apply Q.le_max_l |].
    eapply Forall_impl; [| apply IH]. simpl. intros z Hz.
    eapply Qle_trans; [exact Hz | apply Q.le_max_r].
Qed.

Lemma OR_attained x xs : Exists (fun y => Spec.OR x xs == y) (x :: xs).
Proof.
  revert x. induction xs as [| y ys IH]; intros x; simpl.
  - left. reflexivity.
  - destruct (Q.max_spec x (Spec.OR y ys)) as [[_ E] | [_ E]].
    + right. eapply Exists_impl; [| apply IH]. simpl. intros z Hz.
      now rewrite E.
    + left. exact E.
Qed.

Lemma AND_compat x x' l l' :
  x == x' -> Forall2 Qeq l l' -> Spec.AND x l == Spec.AND x' l'.
Proof.
  intros Hx Hl. revert x x' Hx.
  induction Hl as [| y y' l l' Hy _ IH]; intros x x' Hx; simpl.
  - exact Hx.
  - now rewrite Hx, (IH y y' Hy).
Qed.

Lemma OR_compat x x' l l' :
  x == x' -> Forall2 Qeq l l' -> Spec.OR x l == Spec.OR x' l'.
Proof.
  intros Hx Hl. revert x x' Hx.
  induction Hl as [| y y' l l' Hy _ IH]; intros x x' Hx; simpl.
  - exact Hx.
  - now rewrite Hx, (IH y y' Hy).
Qed.

Lemma lower_Qmin x y : (if y <? x then y else x) == Qmin x y.
Proof.
  destruct (ltb_spec y x).
  - symmetry. apply Q.min_r. lra.
  - symmetry. apply Q.min_l. lra.
Qed.

Lemma higher_Qmax x y : (if y >? x then y else x) == Qmax x y.
Proof.
  destruct (gtb_spec y x).
  - symmetry. apply Q.max_r. lra.
  - symmetry. apply Q.max_l. lra.
Qed.

Lemma Math_min_AND x xs : Math.min x xs == Spec.AND x xs.
Proof.
  revert x. induction xs as [| y ys IH]; intros x.
  - reflexivity.
  - change (Math.min x (y :: ys))
      with (Math.min (if y <? x then y else x) ys).
    rewrite IH. destruct ys as [| z zs]; simpl.
    + apply lower_Qmin.
    + now rewrite lower_Qmin, Q.min_assoc.
Qed.

Lemma Math_max_OR x xs : Math.max x xs == Spec.OR x xs.
Proof.
  revert x. induction xs as [| y ys IH]; intros x.
  - reflexivity.
  - change (Math.max x (y :: ys))
      with (Math.max (if y >? x then y else x) ys).
    rewrite IH. destruct ys as [| z zs]; simpl.
    + apply higher_Qmax.
    + now rewrite higher_Qmax, Q.max_assoc.
Qed.

(** Turns a nest of [Math.min]/[Math.max] calls into the same nest of
    [Spec.AND]/[Spec.OR]. *)
Ltac to_spec :=
  lazymatch goal with
  | |- Math.min _ _ == _ =>
      etransitivity; [apply Math_min_AND | apply AND_compat; to_spec]
  | |- Math.max _ _ == _ =>
      etransitivity; [apply Math_max_OR | apply OR_compat; to_spec]
  | |- Forall2 _ _ _ => constructor; to_spec
  | |- _ == _ => reflexivity
  end.

(** ** The scan of the defuzzifier *)

Lemma reduce_step_keep b key v : v <= value b -> reduce_step b (key, v) = b.
Proof.
  intros H. unfold reduce_step. destruct (gtb_spec v (value b)); [lra | easy].
Qed.

Lemma reduce_step_take b key v :
  value b < v -> reduce_step b (key, v) = {| condition := key; value := v |}.
Proof.
  intros H. unfold reduce_step. destruct (gtb_spec v (value b)); [easy | lra].
Qed.

(** Either no entry exceeds the initial best, which is then returned, or
    the result is the earliest entry that carries the greatest value, and
    that value exceeds the initial one. *)
Lemma reduce_scan (es : list (string * Q)) (b0 : best) :
  let r := fold_left reduce_step es b0 in
  (r = b0 /\ Forall (fun e => snd e <= value b0) es) \/
  (exists i,
     nth_error es i = Some (condition r, value r) /\
     value b0 < value r /\
     (forall j e, nth_error es j = Some e -> snd e <= value r) /\
     (forall j e, (j < i)%nat -> nth_error es j = Some e -> snd e < value r)).
Proof.
  cbv zeta. revert b0.
  induction es as [| [k v] es IH]; intros b0; cbn [fold_left].
  - left. split; [reflexivity | constructor].
  - destruct (Qlt_le_dec (value b0) v) as [Hgt | Hle].
    + rewrite (reduce_step_take b0 k v Hgt).
      destruct (IH {| condition := k; value := v |})
        as [[-> Hall] | (i & Hi & Hv & Hmax & Hearly)]; simpl in *.
      * right. exists 0%nat. simpl. repeat split; trivial.
        -- intros [| j] e He; simpl in He.
           ++ injection He as <-. simpl. lra.
           ++ rewrite Forall_forall in Hall. apply Hall.
              eapply nth_error_In, He.
        -- intros j e Hj. lia.
      * right. exists (S i). simpl. repeat split; trivial.
        -- lra.
        -- intros [| j] e He; simpl in He.
           ++ injection He as <-. simpl. lra.
           ++ eapply Hmax, He.
        -- intros [| j] e Hj He; simpl in He.
           ++ injection He as <-. simpl. lra.
           ++ eapply Hearly; [| exact He]. lia.
    + rewrite (reduce_step_keep b0 k v Hle).
      destruct (IH b0) as [[-> Hall] | (i & Hi & Hv & Hmax & Hearly)].
      * left. split; [reflexivity |]. constructor; assumption.
      * right. exists (S i). simpl. repeat split; trivial.
        -- intros [| j] e He; simpl in He.
           ++ injection He as <-. simpl. lra.
           ++ eapply Hmax, He.
        -- intros [| j] e Hj He; simpl in He.
           ++ injection He as <-. simpl. lra.
           ++ eapply Hearly; [| exact He]. lia.
Qed.

(** When no activation is positive the initial best is the result. *)
Lemma maxCondition_default c :
  Cond.excellent c <= 0 -> Cond.good c <= 0 -> Cond.suitable c <= 0 ->
  Cond.moderate c <= 0 -> Cond.poor c <= 0 -> Cond.hazardous c <= 0 ->
  maxCondition c = {| condition := "moderate"; value := 0 |}.
Proof.
  intros. unfold maxCondition, Object_entries. cbv [fold_left].
  repeat rewrite (reduce_step_keep {| condition := "moderate"; value := 0 |})
    by (cbn [value]; assumption).
  reflexivity.
Qed.

Lemma Object_entries_keys c : map fst (Object_entries c) = canonical_order.
Proof. reflexivity. Qed.

(** * Rule aggregation *)

(** C1.  For every triple of membership vectors the six activation
    strengths are the fixed rule set of the specification, fuzzy AND of k
    operands being the least and fuzzy OR the greatest of the k values:
    excellent = AND(aqi.excellent, temp.comfortable, hum.comfortable);
    good = OR(AND(aqi.good, temp.comfortable),
              AND(aqi.excellent, OR(temp.warm, hum.humid)));
    suitable = OR(AND(aqi.moderate, temp.comfortable),
                  AND(aqi.good, OR(temp.warm, temp.cold)));
    moderate = OR(aqi.moderate, AND(aqi.good, OR(hum.humid, hum.dry)),
                  AND(temp.hot, hum.veryHumid));
    poor = OR(aqi.poor, AND(aqi.moderate, OR(temp.hot, hum.veryHumid)));
    hazardous = OR(aqi.hazardous, AND(aqi.poor, temp.hot, hum.veryHumid)). *)
Theorem conditions_rule_set (a : Aqi.scores) (t : Temp.scores) (h : Hum.scores) :
  let c := conditions a t h in
  Cond.excellent c ==
    Spec.AND (Aqi.excellent a) [Temp.comfortable t; Hum.comfortable h] /\
  Cond.good c ==
    Spec.OR (Spec.AND (Aqi.good a) [Temp.comfortable t])
      [Spec.AND (Aqi.excellent a) [Spec.OR (Temp.warm t) [Hum.humid h]]] /\
  Cond.suitable c ==
    Spec.OR (Spec.AND (Aqi.moderate a) [Temp.comfortable t])
      [Spec.AND (Aqi.good a) [Spec.OR (Temp.warm t) [Temp.cold t]]] /\
  Cond.moderate c ==
    Spec.OR (Aqi.moderate a)
      [Spec.AND (Aqi.good a) [Spec.OR (Hum.humid h) [Hum.dry h]];
       Spec.AND (Temp.hot t) [Hum.veryHumid h]] /\
  Cond.poor c ==
    Spec.OR (Aqi.poor a)
      [Spec.AND (Aqi.moderate a) [Spec.OR (Temp.hot t) [Hum.veryHumid h]]] /\
  Cond.hazardous c ==
    Spec.OR (Aqi.hazardous a)
      [Spec.AND (Aqi.poor a) [Temp.hot t; Hum.veryHumid h]].
Proof.
  cbv zeta. unfold conditions; cbn [Cond.excellent Cond.good Cond.suitable
    Cond.moderate Cond.poor Cond.hazardous].
  repeat split; to_spec.
Qed.

(** * Range of the degrees *)

(** C2.  At a temperature of 0 degrees the [cold] degree is 2, and at a
    humidity of -30 the [dry] degree is 2: neither lies in [0,1].  The two
    formulas clamp from below only, while [hot], [veryHumid] and
    [hazardous] clamp on both sides. *)
Theorem cold_and_dry_exceed_one :
  Temp.cold (fuzzyLogic.tempMembership 0) == 2 /\
  ~ unit_interval (Temp.cold (fuzzyLogic.tempMembership 0)) /\
  Hum.dry (fuzzyLogic.humidityMembership (-30)) == 2 /\
  ~ unit_interval (Hum.dry (fuzzyLogic.humidityMembership (-30))).
Proof.
  assert (Hc : Temp.cold (fuzzyLogic.tempMembership 0) == 2)
    by (vm_compute; reflexivity).
  assert (Hd : Hum.dry (fuzzyLogic.humidityMembership (-30)) == 2)
    by (vm_compute; reflexivity).
  unfold unit_interval. repeat split; try assumption.
  - rewrite Hc. intros [_ H]. lra.
  - rewrite Hd. intros [_ H]. lra.
Qed.

(** * Defuzzification *)

(** C3, as stated, fails: in [all_zero_reading] all six labels share the
    greatest strength 0 and [excellent] is the earliest of them, but the
    scan returns [moderate]. *)
Lemma tie_at_zero_returns_moderate :
  earliest_maximum all_zero_reading 0 "excellent"
    (Cond.excellent all_zero_reading) /\
  Cond.good all_zero_reading == Cond.excellent all_zero_reading /\
  condition (maxCondition all_zero_reading) = "moderate" /\
  condition (maxCondition all_zero_reading) <> "excellent".
Proof.
  split; [| split; [| split]].
  - unfold earliest_maximum. split; [reflexivity | split].
    + intros j e He.
      do 6 (destruct j as [| j];
            [injection He as <-; vm_compute; discriminate |]).
      destruct j; discriminate.
    + intros j e Hj. lia.
  - vm_compute. reflexivity.
  - vm_compute. reflexivity.
  - vm_compute. discriminate.
Qed.

(** C3 (amended).  The scan visits the six activations in the canonical
    order excellent, good, suitable, moderate, poor, hazardous, starting
    from the running best (moderate, 0) and replacing it only by a
    strictly greater value; so whenever the greatest strength is strictly
    positive, the earliest label in canonical order that carries it is
    returned, in particular when two or more labels share it. *)
Theorem earliest_positive_maximum_wins
  (c : Cond.scores) (i : nat) (key : string) (v : Q) :
  earliest_maximum c i key v ->
  0 < v ->
  map fst (Object_entries c) = canonical_order /\
  condition (maxCondition c) = key.
Proof.
  intros (Hi & Hmax & Hearly) Hpos. split; [reflexivity |].
  unfold maxCondition.
  destruct (reduce_scan (Object_entries c)
              {| condition := "moderate"; value := 0 |})
    as [[_ Hall] | (i' & Hi' & _ & Hmax' & Hearly')]; cbn [value] in *.
  - rewrite Forall_forall in Hall.
    pose proof (Hall _ (nth_error_In _ _ Hi)) as H. simpl in H. lra.
  - set (r := fold_left reduce_step (Object_entries c)
                {| condition := "moderate"; value := 0 |}) in *.
    pose proof (Hmax _ _ Hi') as H1. pose proof (Hmax' _ _ Hi) as H2.
    simpl in H1, H2.
    destruct (Nat.lt_trichotomy i i') as [Hlt | [Heq | Hgt]].
    + pose proof (Hearly' _ _ Hlt Hi) as H. simpl in H. lra.
    + subst i'. rewrite Hi in Hi'. now injection Hi' as -> _.
    + pose proof (Hearly _ _ Hgt Hi') as H. simpl in H. lra.
Qed.

(** The tie rule at work: in [tied_reading], [excellent] and [good] share
    the greatest strength 1/2 and [excellent] is returned. *)
Lemma earliest_positive_maximum_wins_witness :
  earliest_maximum tied_reading 0 "excellent" (Cond.excellent tied_reading) /\
  0 < Cond.excellent tied_reading /\
  Cond.good tied_reading == Cond.excellent tied_reading /\
  condition (maxCondition tied_reading) = "excellent".
Proof.
  assert (E : earliest_maximum tied_reading 0 "excellent"
                (Cond.excellent tied_reading)).
  { unfold earliest_maximum. split; [reflexivity | split].
    - intros j e He.
      do 6 (destruct j as [| j];
            [injection He as <-; vm_compute; discriminate |]).
      destruct j; discriminate.
    - intros j e Hj. lia. }
  assert (P : 0 < Cond.excellent tied_reading) by (vm_compute; reflexivity).
  split; [exact E | split; [exact P | split]].
  - vm_compute. reflexivity.
  - exact (proj2 (earliest_positive_maximum_wins tied_reading 0%nat
                    "excellent" (Cond.excellent tied_reading) E P)).
Defined.

(** C4.  For every input whose six activation strengths are all exactly 0
    the pipeline returns the label moderate. *)
Theorem all_zero_returns_moderate (mq135Raw baseline temp humidity : Q) :
  Cond.excellent (activations mq135Raw baseline temp humidity) == 0 ->
  Cond.good (activations mq135Raw baseline temp humidity) == 0 ->
  Cond.suitable (activations mq135Raw baseline temp humidity) == 0 ->
  Cond.moderate (activations mq135Raw baseline temp humidity) == 0 ->
  Cond.poor (activations mq135Raw baseline temp humidity) == 0 ->
  Cond.hazardous (activations mq135Raw baseline temp humidity) == 0 ->
  getEnvironmentCondition mq135Raw baseline temp humidity = "moderate".
Proof.
  intros H1 H2 H3 H4 H5 H6. unfold getEnvironmentCondition.
  rewrite maxCondition_default; [reflexivity | lra ..].
Qed.

(** The default at work: gas reading at its baseline, 0 degrees, 30 %
    humidity. *)
Lemma all_zero_returns_moderate_witness :
  Cond.excellent (activations 200 200 0 30) == 0 /\
  Cond.good (activations 200 200 0 30) == 0 /\
  Cond.suitable (activations 200 200 0 30) == 0 /\
  Cond.moderate (activations 200 200 0 30) == 0 /\
  Cond.poor (activations 200 200 0 30) == 0 /\
  Cond.hazardous (activations 200 200 0 30) == 0 /\
  getEnvironmentCondition 200 200 0 30 = "moderate".
Proof.
  do 6 (split; [vm_compute; reflexivity |]).
  apply (all_zero_returns_moderate 200 200 0 30); vm_compute; reflexivity.
Defined.

(** * Scenarios *)

(** C5.  Scenario B: rawGasValue 306, baselineValue 200 (deviation 106),
    temperature 26.70, humidity 52.00 give the activation vector
    excellent 0, good 0, suitable 0, moderate 0, poor 0.72, hazardous 0
    and the Condition poor. *)
Theorem scenario_B :
  Cond.equiv (activations 306 200 26.70 52.00)
    {| Cond.excellent := 0; Cond.good := 0; Cond.suitable := 0;
       Cond.moderate := 0; Cond.poor := 0.72; Cond.hazardous := 0 |} /\
  getEnvironmentCondition 306 200 26.70 52.00 = "poor".
Proof.
  split.
  - unfold Cond.equiv. repeat split; vm_compute; reflexivity.
  - vm_compute. reflexivity.
Qed.

(** C6.  Scenario A: deviation 0 (any reading equal to its baseline),
    temperature 22.0, humidity 45.0 give the activation vector
    excellent 1.0, good 0.25, suitable 0, moderate 0, poor 0, hazardous 0
    and the Condition excellent. *)
Theorem scenario_A (baseline : Q) :
  Cond.equiv (activations baseline baseline 22.0 45.0)
    {| Cond.excellent := 1.0; Cond.good := 0.25; Cond.suitable := 0;
       Cond.moderate := 0; Cond.poor := 0; Cond.hazardous := 0 |} /\
  getEnvironmentCondition baseline baseline 22.0 45.0 = "excellent".
Proof.
  assert (H : baseline - baseline == 0 - 0) by lra.
  split.
  - pose proof (activations_compat _ _ _ _ 22.0 45.0 H)
      as (E1 & E2 & E3 & E4 & E5 & E6).
    unfold Cond.equiv.
    rewrite E1, E2, E3, E4, E5, E6.
    repeat split; vm_compute; reflexivity.
  - rewrite (getEnvironmentCondition_compat _ _ _ _ 22.0 45.0 H).
    vm_compute. reflexivity.
Qed.

(** * Breakpoints of the membership functions *)

(** C7, as stated, fails: at absDeviation = 80 the two arms of the AQI
    [moderate] degree differ, and so do at 150 the two arms of [poor]. *)
Lemma upper_breakpoints_jump :
  ~ (fuzzyLogic.moderate_inside 30 == fuzzyLogic.moderate_outside 30 /\
     fuzzyLogic.moderate_inside 80 == fuzzyLogic.moderate_outside 80 /\
     fuzzyLogic.poor_inside 70 == fuzzyLogic.poor_outside 70 /\
     fuzzyLogic.poor_inside 150 == fuzzyLogic.poor_outside 150 /\
     fuzzyLogic.temp_comfortable_below 18 ==
       fuzzyLogic.temp_comfortable_plateau /\
     fuzzyLogic.temp_comfortable_plateau ==
       fuzzyLogic.temp_comfortable_above 26 /\
     fuzzyLogic.hum_comfortable_below 30 ==
       fuzzyLogic.hum_comfortable_plateau /\
     fuzzyLogic.hum_comfortable_plateau ==
       fuzzyLogic.hum_comfortable_above 60).
Proof.
  intros (_ & H & _). vm_compute in H. discriminate H.
Qed.

(** C7 (amended).  The two arms meet at the lower breakpoints 30 of the
    AQI [moderate] degree and 70 of [poor], and at both breakpoints of the
    temperature [comfortable] degree (18, 26) and of the humidity
    [comfortable] degree (30, 60).  At the upper breakpoint 80 of
    [moderate] the arms give 1 and 4/7, at the upper breakpoint 150 of
    [poor] they give 1 and 2/5; the function takes the second value
    there. *)
Theorem breakpoint_arms :
  fuzzyLogic.moderate_inside 30 == fuzzyLogic.moderate_outside 30 /\
  fuzzyLogic.poor_inside 70 == fuzzyLogic.poor_outside 70 /\
  fuzzyLogic.temp_comfortable_below 18 ==
    fuzzyLogic.temp_comfortable_plateau /\
  fuzzyLogic.temp_comfortable_plateau ==
    fuzzyLogic.temp_comfortable_above 26 /\
  fuzzyLogic.hum_comfortable_below 30 ==
    fuzzyLogic.hum_comfortable_plateau /\
  fuzzyLogic.hum_comfortable_plateau ==
    fuzzyLogic.hum_comfortable_above 60 /\
  fuzzyLogic.moderate_inside 80 == 1 /\
  fuzzyLogic.moderate_outside 80 == 4 # 7 /\
  Aqi.moderate (fuzzyLogic.aqiMembership 80) == 4 # 7 /\
  fuzzyLogic.poor_inside 150 == 1 /\
  fuzzyLogic.poor_outside 150 == 2 # 5 /\
  Aqi.poor (fuzzyLogic.aqiMembership 150) == 2 # 5.
Proof.
  repeat split; vm_compute; reflexivity.
Qed.

(** * Dependence on the gas reading *)

Lemma activations_aqi_compat raw base raw' base' t h :
  Aqi.equiv (fuzzyLogic.aqiMembership (raw - base))
            (fuzzyLogic.aqiMembership (raw' - base')) ->
  Cond.equiv (activations raw base t h) (activations raw' base' t h).
Proof.
  intros H. unfold activations.
  apply conditions_compat; auto using equiv_refl_temp, equiv_refl_hum.
Qed.

(** In exact arithmetic, shifting the reading and the baseline by the same
    [c] leaves the difference, hence the AQI vector, the activations and
    the Condition, unchanged. *)
Lemma exact_shift_invariance (mq135Raw baseline temp humidity c : Q) :
  Aqi.equiv
    (fuzzyLogic.aqiMembership ((mq135Raw + c) - (baseline + c)))
    (fuzzyLogic.aqiMembership (mq135Raw - baseline)) /\
  Cond.equiv
    (activations (mq135Raw + c) (baseline + c) temp humidity)
    (activations mq135Raw baseline temp humidity) /\
  getEnvironmentCondition (mq135Raw + c) (baseline + c) temp humidity =
  getEnvironmentCondition mq135Raw baseline temp humidity.
Proof.
  assert (H : (mq135Raw + c) - (baseline + c) == mq135Raw - baseline) by lra.
  split; [| split].
  - apply aqiMembership_compat, H.
  - apply activations_compat, H.
  - apply getEnvironmentCondition_compat, H.
Qed.

(** In exact arithmetic, a reading [d] above the baseline and a reading
    [d] below it have the same AQI vector, hence the same activations and
    the same Condition. *)
Lemma exact_sign_symmetry (b d t h : Q) :
  Aqi.equiv (fuzzyLogic.aqiMembership ((b + d) - b))
            (fuzzyLogic.aqiMembership ((b - d) - b)) /\
  Cond.equiv (activations (b + d) b t h) (activations (b - d) b t h) /\
  getEnvironmentCondition (b + d) b t h =
  getEnvironmentCondition (b - d) b t h.
Proof.
  assert (E : Aqi.equiv (fuzzyLogic.aqiMembership ((b + d) - b))
                        (fuzzyLogic.aqiMembership ((b - d) - b))).
  { apply aqi_equiv_trans with (fuzzyLogic.aqiMembership d).
    - apply aqiMembership_compat. lra.
    - apply aqi_equiv_trans with (fuzzyLogic.aqiMembership (- d)).
      + apply aqi_equiv_sym, aqiMembership_opp.
      + apply aqiMembership_compat. lra. }
  split; [exact E | split].
  - apply activations_aqi_compat, E.
  - unfold getEnvironmentCondition.
    apply maxCondition_compat, activations_aqi_compat, E.
Qed.

(** ** On binary64 numbers *)

(** [Math.abs] forgets the sign of a binary64 number. *)
Lemma binary64_abs_opp (x : float) :
  Binary64.Math.abs (- x)%float = Binary64.Math.abs x.
Proof.
  unfold Binary64.Math.abs. apply Prim2SF_inj.
  rewrite !abs_spec, opp_spec. destruct (Prim2SF x); reflexivity.
Qed.

(** The AQI vector reads the deviation through its absolute value only. *)
Lemma binary64_aqiMembership_abs (x y : float) :
  Binary64.Math.abs x = Binary64.Math.abs y ->
  Binary64.fuzzyLogic.aqiMembership x = Binary64.fuzzyLogic.aqiMembership y.
Proof.
  intros H. unfold Binary64.fuzzyLogic.aqiMembership. cbv zeta.
  rewrite H. reflexivity.
Qed.

(** The pipeline reads the two gas values through the AQI vector of their
    computed difference only. *)
Lemma binary64_activations_aqi raw base raw' base' t h :
  Binary64.fuzzyLogic.aqiMembership (raw - base)%float =
  Binary64.fuzzyLogic.aqiMembership (raw' - base')%float ->
  Binary64.activations raw base t h = Binary64.activations raw' base' t h /\
  Binary64.getEnvironmentCondition raw base t h =
  Binary64.getEnvironmentCondition raw' base' t h.
Proof.
  intros H. unfold Binary64.getEnvironmentCondition, Binary64.activations.
  cbv zeta. rewrite H. split; reflexivity.
Qed.

(** C8, as stated, fails on the numbers the code computes with: shifting
    the reading 350 and the baseline 200 by 0.4 rounds the two sums so
    that their difference is no longer 150, and at 35 degrees and 80 %
    humidity the Condition changes from moderate to poor. *)
Lemma shift_changes_condition :
  Binary64.getEnvironmentCondition 350 200 35 80 = "moderate" /\
  Binary64.getEnvironmentCondition (350 + 0.4) (200 + 0.4) 35 80 = "poor" /\
  Binary64.getEnvironmentCondition (350 + 0.4) (200 + 0.4) 35 80 <>
  Binary64.getEnvironmentCondition 350 200 35 80.
Proof.
  split; [vm_compute; reflexivity | split; [vm_compute; reflexivity |]].
  vm_compute. discriminate.
Qed.

(** C8 (amended).  The classifier depends on rawGasValue and baselineValue
    through their computed difference only: for every shift [c] that
    leaves the computed difference unchanged, that is
    [(rawGasValue + c) - (baselineValue + c)] evaluates to the same number
    as [rawGasValue - baselineValue], the shifted call returns the same
    AQI vector, the same activation vector and the same Condition (the
    temperature and humidity vectors do not read the gas values at
    all). *)
Theorem shift_invariance_of_computed_difference
  (mq135Raw baseline temp humidity c : float) :
  ((mq135Raw + c) - (baseline + c) = mq135Raw - baseline)%float ->
  Binary64.fuzzyLogic.aqiMembership ((mq135Raw + c) - (baseline + c))%float =
  Binary64.fuzzyLogic.aqiMembership (mq135Raw - baseline)%float /\
  Binary64.activations (mq135Raw + c)%float (baseline + c)%float
    temp humidity =
  Binary64.activations mq135Raw baseline temp humidity /\
  Binary64.getEnvironmentCondition (mq135Raw + c)%float (baseline + c)%float
    temp humidity =
  Binary64.getEnvironmentCondition mq135Raw baseline temp humidity.
Proof.
  intros H.
  assert (A : Binary64.fuzzyLogic.aqiMembership
                ((mq135Raw + c) - (baseline + c))%float =
              Binary64.fuzzyLogic.aqiMembership (mq135Raw - baseline)%float)
    by (rewrite H; reflexivity).
  split; [exact A | apply binary64_activations_aqi, A].
Qed.

(** The simulated reading and its baseline shifted by 1: both sums and
    both differences are exact. *)
Lemma shift_invariance_of_computed_difference_witness :
  ((306 + 1) - (200 + 1) = 306 - 200)%float /\
  Binary64.getEnvironmentCondition (306 + 1)%float (200 + 1)%float
    26.70%float 52.00%float =
  Binary64.getEnvironmentCondition 306 200 26.70 52.00.
Proof.
  assert (H : ((306 + 1) - (200 + 1) = 306 - 200)%float)
    by (vm_compute; reflexivity).
  split; [exact H |].
  exact (proj2 (proj2 (shift_invariance_of_computed_difference
                         306 200 26.70 52.00 1 H))).
Defined.

(** C10, as stated, fails on the numbers the code computes with: for the
    baseline 6.1 and the magnitude 10 the deviation above the baseline is
    computed as 10.000000000000002 and the one below it as -10, and at 22
    degrees and 45 % humidity the first reading is classified good, the
    second excellent. *)
Lemma sign_changes_condition :
  Binary64.getEnvironmentCondition (6.1 + 10) 6.1 22 45 = "good" /\
  Binary64.getEnvironmentCondition (6.1 - 10) 6.1 22 45 = "excellent" /\
  Binary64.getEnvironmentCondition (6.1 + 10) 6.1 22 45 <>
  Binary64.getEnvironmentCondition (6.1 - 10) 6.1 22 45.
Proof.
  split; [vm_compute; reflexivity | split; [vm_compute; reflexivity |]].
  vm_compute. discriminate.
Qed.

(** C10 (amended).  The classifier is symmetric in the sign of the
    computed deviation: for every baseline [b], magnitude [d],
    temperature and humidity for which the two computed deviations
    [(b - d) - b] and [(b + d) - b] are opposite numbers, the two calls
    return the same AQI vector, the same activation vector and the same
    Condition, because the AQI membership vector is computed from the
    absolute value of the deviation only. *)
Theorem sign_symmetry_of_computed_deviation (b d t h : float) :
  ((b - d) - b = - ((b + d) - b))%float ->
  Binary64.fuzzyLogic.aqiMembership ((b + d) - b)%float =
  Binary64.fuzzyLogic.aqiMembership ((b - d) - b)%float /\
  Binary64.activations (b + d)%float b t h =
  Binary64.activations (b - d)%float b t h /\
  Binary64.getEnvironmentCondition (b + d)%float b t h =
  Binary64.getEnvironmentCondition (b - d)%float b t h.
Proof.
  intros H.
  assert (A : Binary64.fuzzyLogic.aqiMembership ((b + d) - b)%float =
              Binary64.fuzzyLogic.aqiMembership ((b - d) - b)%float).
  { apply binary64_aqiMembership_abs. rewrite H.
    symmetry. apply binary64_abs_opp. }
  split; [exact A | apply binary64_activations_aqi, A].
Qed.

(** The simulated reading 106 above the baseline 200, and the reading 106
    below it. *)
Lemma sign_symmetry_of_computed_deviation_witness :
  ((200 - 106) - 200 = - ((200 + 106) - 200))%float /\
  Binary64.getEnvironmentCondition (200 + 106)%float 200 26.70 52.00 =
  Binary64.getEnvironmentCondition (200 - 106)%float 200 26.70 52.00.
Proof.
  assert (H : ((200 - 106) - 200 = - ((200 + 106) - 200))%float)
    by (vm_compute; reflexivity).
  split; [exact H |].
  exact (proj2 (proj2 (sign_symmetry_of_computed_deviation
                         200 106 26.70 52.00 H))).
Defined.

(** * Presentation lookup *)

(** The classifier only ever returns one of the six labels, whatever the
    readings. *)
Lemma getEnvironmentCondition_recognized raw base temp humidity :
  In (getEnvironmentCondition raw base temp humidity) Presentation.recognized.
Proof.
  unfold getEnvironmentCondition, maxCondition.
  destruct (reduce_scan
              (Object_entries (activations raw base temp humidity))
              {| condition := "moderate"; value := 0 |})
    as [[-> _] | (i & Hi & _)].
  - simpl. tauto.
  - apply nth_error_In, (in_map fst) in Hi.
    rewrite Object_entries_keys in Hi. exact Hi.
Qed.

Lemma own_recognized key :
  Presentation.own Presentation.details key <> None <->
  In key Presentation.recognized.
Proof.
  split.
  - unfold Presentation.details, Presentation.recognized.
    cbn [Presentation.own].
    repeat match goal with
    | |- context [String.eqb ?k key] =>
        destruct (String.eqb_spec k key) as [<- | _]; [intros _; simpl; tauto |]
    end.
    intros H. now contradiction H.
  - intros H. simpl in H.
    repeat (destruct H as [<- | H]; [vm_compute; discriminate |]).
    contradiction.
Qed.

(** The six recognized labels resolve to their own entries. *)
Lemma getConditionDetails_recognized key :
  In key Presentation.recognized ->
  exists e, Presentation.own Presentation.details key = Some e /\
            Presentation.getConditionDetails key = Presentation.Entry e.
Proof.
  intros H. apply own_recognized in H.
  unfold Presentation.getConditionDetails, Presentation.get.
  destruct (Presentation.own Presentation.details key) as [e |];
    [| contradiction].
  exists e. split; reflexivity.
Qed.

(** A label that is neither recognized nor a property name of
    [Object.prototype] resolves to the moderate entry. *)
Lemma getConditionDetails_fallback key :
  ~ In key Presentation.recognized ->
  ~ In key Presentation.Object_prototype ->
  Presentation.getConditionDetails key =
  Presentation.getConditionDetails "moderate".
Proof.
  intros Hr Hp. unfold Presentation.getConditionDetails at 1.
  unfold Presentation.get at 1.
  destruct (Presentation.own Presentation.details key) eqn:E.
  - exfalso. apply Hr, own_recognized. congruence.
  - destruct (existsb (String.eqb key) Presentation.Object_prototype) eqn:X.
    + exfalso. apply existsb_exists in X as (k & Hk & Hkey).
      apply String.eqb_eq in Hkey. now subst k.
    + reflexivity.
Qed.

(** C9.  The label "toString" is not one of the six recognized labels, yet
    the lookup does not return the moderate entry for it: [details]
    inherits a property of that name, which is truthy, so the fallback
    after [||] is never reached. *)
Theorem inherited_label_misses_fallback :
  ~ In "toString" Presentation.recognized /\
  Presentation.getConditionDetails "toString" =
    Presentation.Inherited "toString" /\
  Presentation.getConditionDetails "toString" <>
    Presentation.getConditionDetails "moderate".
Proof.
  split; [| split].
  - simpl. intuition discriminate.
  - reflexivity.
  - vm_compute. discriminate.
Qed.

(** * Further properties of the classifier *)

(** Steps through the scan of the six entries once the order between each
    activation and the running best follows from the context. *)
Ltac scan_step :=
  match goal with
  | |- context [reduce_step ?b (?k, ?v)] =>
      lazymatch b with
      | context [reduce_step] => fail
      | _ => idtac
      end;
      first [ rewrite (reduce_step_keep b k v) by (cbn [value]; lra)
            | rewrite (reduce_step_take b k v) by (cbn [value]; lra) ]
  end.

Ltac scan :=
  unfold maxCondition, Object_entries; cbv [fold_left];
  repeat scan_step; cbn [condition value].

(** X1.  Whatever the four readings, each of the six activation strengths
    lies in [0,1]: the rules bound every activation by an AQI degree or by
    min(hot, veryHumid), all of which are clamped, so the unclamped [cold]
    and [dry] degrees never show. *)
Theorem activation_strengths_in_unit_interval
  (mq135Raw baseline temp humidity : Q) :
  unit_interval (Cond.excellent (activations mq135Raw baseline temp humidity)) /\
  unit_interval (Cond.good (activations mq135Raw baseline temp humidity)) /\
  unit_interval (Cond.suitable (activations mq135Raw baseline temp humidity)) /\
  unit_interval (Cond.moderate (activations mq135Raw baseline temp humidity)) /\
  unit_interval (Cond.poor (activations mq135Raw baseline temp humidity)) /\
  unit_interval (Cond.hazardous (activations mq135Raw baseline temp humidity)).
Proof. apply activations_range. Qed.

(** X2.  For a temperature of at least 10 degrees and a non-negative
    humidity, every degree of the three membership vectors lies in [0,1],
    whatever the deviation. *)
Theorem membership_degrees_in_unit_interval (deviation temp humidity : Q) :
  10 <= temp -> 0 <= humidity ->
  let a := fuzzyLogic.aqiMembership deviation in
  let t := fuzzyLogic.tempMembership temp in
  let h := fuzzyLogic.humidityMembership humidity in
  (unit_interval (Aqi.excellent a) /\ unit_interval (Aqi.good a) /\
   unit_interval (Aqi.moderate a) /\ unit_interval (Aqi.poor a) /\
   unit_interval (Aqi.hazardous a)) /\
  (unit_interval (Temp.cold t) /\ unit_interval (Temp.comfortable t) /\
   unit_interval (Temp.warm t) /\ unit_interval (Temp.hot t)) /\
  (unit_interval (Hum.dry h) /\ unit_interval (Hum.comfortable h) /\
   unit_interval (Hum.humid h) /\ unit_interval (Hum.veryHumid h)).
Proof.
  intros Ht Hh. cbv zeta. split; [apply aqiMembership_range | split].
  - destruct (tempMembership_range temp) as (_ & ? & ? & ?).
    auto using cold_range.
  - destruct (humidityMembership_range humidity) as (_ & ? & ? & ?).
    auto using dry_range.
Qed.

(** The invariant at the simulated reading of the source. *)
Lemma membership_degrees_in_unit_interval_witness :
  10 <= 26.70 /\ 0 <= 52.00 /\
  unit_interval (Temp.cold (fuzzyLogic.tempMembership 26.70)) /\
  unit_interval (Hum.dry (fuzzyLogic.humidityMembership 52.00)).
Proof.
  assert (Ht : 10 <= 26.70) by (vm_compute; discriminate).
  assert (Hh : 0 <= 52.00) by (vm_compute; discriminate).
  split; [exact Ht | split; [exact Hh |]].
  pose proof (membership_degrees_in_unit_interval 106 26.70 52.00 Ht Hh)
    as (_ & (Hc & _) & (Hd & _)).
  split; [exact Hc | exact Hd].
Defined.

(** X3.  The label the classifier returns always carries the greatest of
    the six activation strengths, also when it is the default: no
    activation exceeds the one of the returned label. *)
Theorem returned_label_carries_greatest_strength
  (mq135Raw baseline temp humidity : Q) :
  exists v,
    In (getEnvironmentCondition mq135Raw baseline temp humidity, v)
       (Object_entries (activations mq135Raw baseline temp humidity)) /\
    forall e,
      In e (Object_entries (activations mq135Raw baseline temp humidity)) ->
      snd e <= v.
Proof.
  unfold getEnvironmentCondition, maxCondition.
  set (c := activations mq135Raw baseline temp humidity).
  destruct (reduce_scan (Object_entries c)
              {| condition := "moderate"; value := 0 |})
    as [[-> Hall] | (i & Hi & _ & Hmax & _)]; cbn [condition value] in *.
  - exists (Cond.moderate c).
    split; [unfold Object_entries; do 3 right; left; reflexivity |].
    intros e He. rewrite Forall_forall in Hall.
    pose proof (Hall e He) as H.
    destruct (activations_range mq135Raw baseline temp humidity)
      as (_ & _ & _ & [H0 _] & _).
    fold c in H0. lra.
  - eexists. split; [eapply nth_error_In, Hi |].
    intros e He. apply In_nth_error in He as [j Hj]. eapply Hmax, Hj.
Qed.

(** ** Regimes of the readings *)

Ltac unfold_memberships :=
  unfold fuzzyLogic.aqiMembership, fuzzyLogic.tempMembership,
    fuzzyLogic.humidityMembership;
  cbn [Aqi.excellent Aqi.good Aqi.moderate Aqi.poor Aqi.hazardous
       Temp.cold Temp.comfortable Temp.warm Temp.hot
       Hum.dry Hum.comfortable Hum.humid Hum.veryHumid];
  unfold fuzzyLogic.moderate_inside, fuzzyLogic.moderate_outside,
    fuzzyLogic.poor_inside, fuzzyLogic.poor_outside,
    fuzzyLogic.temp_comfortable_plateau, fuzzyLogic.temp_comfortable_below,
    fuzzyLogic.temp_comfortable_above, fuzzyLogic.hum_comfortable_plateau,
    fuzzyLogic.hum_comfortable_below, fuzzyLogic.hum_comfortable_above.

(** Proves a bound on one activation from bounds on the degrees, which
    stay folded. *)
Ltac activation_fact :=
  unfold activations, conditions;
  cbn [Cond.excellent Cond.good Cond.suitable Cond.moderate Cond.poor
       Cond.hazardous];
  js_arith.

(** AQI degrees for a deviation of 200 or more in absolute value. *)
Lemma aqi_far d :
  200 <= Math.abs d ->
  let a := fuzzyLogic.aqiMembership d in
  Aqi.excellent a == 0 /\ Aqi.good a == 0 /\ Aqi.moderate a == 0 /\
  Aqi.poor a == 0 /\ Aqi.hazardous a == 1.
Proof.
  cbv zeta. unfold_memberships. generalize (Math.abs d). intros a Ha.
  repeat split; js_arith.
Qed.

(** AQI degrees for a deviation of at most 10 in absolute value. *)
Lemma aqi_near d :
  Math.abs d <= 10 ->
  let a := fuzzyLogic.aqiMembership d in
  1 # 2 <= Aqi.excellent a /\ 0 <= Aqi.good a /\
  Aqi.good a <= Aqi.excellent a /\ Aqi.moderate a == 0 /\
  Aqi.poor a == 0 /\ Aqi.hazardous a == 0.
Proof.
  cbv zeta. unfold_memberships. pose proof (abs_nonneg d) as H0.
  generalize dependent (Math.abs d). intros a H0 Ha.
  repeat split; js_arith.
Qed.

(** Temperature degrees from 40 degrees upwards, and on the comfortable
    plateau. *)
Lemma temp_very_hot temp :
  40 <= temp ->
  let t := fuzzyLogic.tempMembership temp in
  Temp.cold t == 0 /\ Temp.comfortable t == 0 /\ Temp.warm t == 0 /\
  Temp.hot t == 1.
Proof. intros H. cbv zeta. unfold_memberships. repeat split; js_arith. Qed.

Lemma temp_plateau temp :
  18 <= temp -> temp <= 26 ->
  let t := fuzzyLogic.tempMembership temp in
  Temp.comfortable t == 1 /\ Temp.hot t == 0.
Proof. intros H1 H2. cbv zeta. unfold_memberships. repeat split; js_arith. Qed.

Lemma temp_below_40 temp :
  temp < 40 -> Temp.hot (fuzzyLogic.tempMembership temp) < 1.
Proof. intros H. unfold_memberships. js_arith. Qed.

(** Humidity degrees from 90 % upwards, and on the comfortable plateau. *)
Lemma hum_very_humid humidity :
  90 <= humidity ->
  let h := fuzzyLogic.humidityMembership humidity in
  Hum.dry h == 0 /\ Hum.comfortable h == 0 /\ Hum.humid h == 0 /\
  Hum.veryHumid h == 1.
Proof. intros H. cbv zeta. unfold_memberships. repeat split; js_arith. Qed.

Lemma hum_plateau humidity :
  30 <= humidity -> humidity <= 60 ->
  Hum.comfortable (fuzzyLogic.humidityMembership humidity) == 1.
Proof. intros H1 H2. unfold_memberships. js_arith. Qed.

Lemma hum_below_90 humidity :
  humidity < 90 -> Hum.veryHumid (fuzzyLogic.humidityMembership humidity) < 1.
Proof. intros H. unfold_memberships. js_arith. Qed.

(** X4.  A gas reading 200 or more away from the baseline is classified
    hazardous, unless the room is both at 40 degrees or more and at 90 %
    humidity or more. *)
Theorem far_deviation_returns_hazardous
  (mq135Raw baseline temp humidity : Q) :
  200 <= Math.abs (mq135Raw - baseline) ->
  temp < 40 \/ humidity < 90 ->
  getEnvironmentCondition mq135Raw baseline temp humidity = "hazardous".
Proof.
  intros Hd Hth.
  destruct (aqi_far _ Hd) as (Ae & Ag & Am & Ap & Ah).
  destruct (tempMembership_range temp) as (Tc & [Tf _] & [Tw _] & [Th Th1]).
  destruct (humidityMembership_range humidity)
    as (Hdry & [Hc _] & [Hh _] & [Hv Hv1]).
  set (c := activations mq135Raw baseline temp humidity).
  assert (E : Cond.excellent c <= 0) by (subst c; activation_fact).
  assert (G : Cond.good c <= 0) by (subst c; activation_fact).
  assert (S : Cond.suitable c <= 0) by (subst c; activation_fact).
  assert (P : Cond.poor c <= 0) by (subst c; activation_fact).
  assert (Z : Cond.hazardous c == 1) by (subst c; activation_fact).
  assert (M : 0 <= Cond.moderate c /\ Cond.moderate c < 1).
  { destruct Hth as [Ht | Hh90].
    - pose proof (temp_below_40 _ Ht). subst c. split; activation_fact.
    - pose proof (hum_below_90 _ Hh90). subst c. split; activation_fact. }
  destruct M as [M0 M1].
  unfold getEnvironmentCondition. fold c.
  destruct (Qlt_le_dec 0 (Cond.moderate c)); scan; reflexivity.
Qed.

(** Hazardous air in an ordinary room. *)
Lemma far_deviation_returns_hazardous_witness :
  200 <= Math.abs (400 - 200) /\ (22 < 40 \/ 45 < 90) /\
  getEnvironmentCondition 400 200 22 45 = "hazardous".
Proof.
  assert (Hd : 200 <= Math.abs (400 - 200)) by (vm_compute; discriminate).
  assert (Ht : 22 < 40 \/ 45 < 90) by (left; reflexivity).
  split; [exact Hd | split; [exact Ht |]].
  exact (far_deviation_returns_hazardous 400 200 22 45 Hd Ht).
Defined.

(** X5.  At 40 degrees or more and 90 % humidity or more the classifier
    returns moderate whatever the gas reading: the rule
    min(hot, veryHumid) lifts the moderate activation to 1, the labels
    before it are at 0, and the labels after it cannot exceed 1. *)
Theorem hot_and_very_humid_returns_moderate
  (mq135Raw baseline temp humidity : Q) :
  40 <= temp -> 90 <= humidity ->
  getEnvironmentCondition mq135Raw baseline temp humidity = "moderate".
Proof.
  intros Ht Hh.
  destruct (aqiMembership_range (mq135Raw - baseline))
    as ([Ae0 Ae1] & [Ag0 Ag1] & [Am0 Am1] & [Ap0 Ap1] & [Ah0 Ah1]).
  destruct (temp_very_hot _ Ht) as (Tc & Tf & Tw & Th).
  destruct (hum_very_humid _ Hh) as (Hd & Hc & Hu & Hv).
  destruct (activations_range mq135Raw baseline temp humidity)
    as (_ & _ & _ & _ & [_ P1] & [_ Z1]).
  set (c := activations mq135Raw baseline temp humidity) in *.
  assert (E : Cond.excellent c <= 0) by (subst c; activation_fact).
  assert (G : Cond.good c <= 0) by (subst c; activation_fact).
  assert (S : Cond.suitable c <= 0) by (subst c; activation_fact).
  assert (M : Cond.moderate c == 1) by (subst c; activation_fact).
  unfold getEnvironmentCondition. fold c. scan. reflexivity.
Qed.

(** A reading 200 above the baseline in a hot and very humid room is not
    reported as hazardous. *)
Lemma hot_and_very_humid_returns_moderate_witness :
  40 <= 40 /\ 90 <= 90 /\
  getEnvironmentCondition 400 200 40 90 = "moderate".
Proof.
  assert (Ht : 40 <= 40) by (vm_compute; discriminate).
  assert (Hh : 90 <= 90) by (vm_compute; discriminate).
  split; [exact Ht | split; [exact Hh |]].
  exact (hot_and_very_humid_returns_moderate 400 200 40 90 Ht Hh).
Defined.

(** X6.  A gas reading within 10 of the baseline, a temperature on the
    comfortable plateau (18 to 26 degrees) and a humidity on the
    comfortable plateau (30 to 60 %) are classified excellent. *)
Theorem comfort_zone_returns_excellent
  (mq135Raw baseline temp humidity : Q) :
  Math.abs (mq135Raw - baseline) <= 10 ->
  18 <= temp -> temp <= 26 -> 30 <= humidity -> humidity <= 60 ->
  getEnvironmentCondition mq135Raw baseline temp humidity = "excellent".
Proof.
  intros Hd Ht1 Ht2 Hh1 Hh2.
  destruct (aqi_near _ Hd) as (Ae & Ag0 & Ag & Am & Ap & Ah).
  destruct (aqiMembership_range (mq135Raw - baseline)) as ([_ Ae1] & _).
  destruct (temp_plateau _ Ht1 Ht2) as (Tf & Th).
  destruct (tempMembership_range temp) as (Tc & _ & [Tw _] & _).
  pose proof (hum_plateau _ Hh1 Hh2) as Hc.
  destruct (humidityMembership_range humidity)
    as (Hdry & _ & [Hu _] & [Hv _]).
  set (c := activations mq135Raw baseline temp humidity).
  assert (E : 1 # 2 <= Cond.excellent c) by (subst c; activation_fact).
  assert (E' : Aqi.excellent (fuzzyLogic.aqiMembership (mq135Raw - baseline))
               <= Cond.excellent c) by (subst c; activation_fact).
  assert (G : Cond.good c <= Cond.excellent c).
  { eapply Qle_trans; [| exact E']. subst c. activation_fact. }
  assert (S : Cond.suitable c <= Cond.excellent c).
  { eapply Qle_trans; [| exact E']. subst c. activation_fact. }
  assert (M : Cond.moderate c <= Cond.excellent c).
  { eapply Qle_trans; [| exact E']. subst c. activation_fact. }
  assert (P : Cond.poor c <= 0) by (subst c; activation_fact).
  assert (Z : Cond.hazardous c <= 0) by (subst c; activation_fact).
  unfold getEnvironmentCondition. fold c. scan. reflexivity.
Qed.

(** A reading 5 above the baseline at 22 degrees and 45 % humidity. *)
Lemma comfort_zone_returns_excellent_witness :
  Math.abs (205 - 200) <= 10 /\ 18 <= 22 /\ 22 <= 26 /\ 30 <= 45 /\ 45 <= 60 /\
  getEnvironmentCondition 205 200 22 45 = "excellent".
Proof.
  assert (H1 : Math.abs (205 - 200) <= 10) by (vm_compute; discriminate).
  assert (H2 : 18 <= 22) by (vm_compute; discriminate).
  assert (H3 : 22 <= 26) by (vm_compute; discriminate).
  assert (H4 : 30 <= 45) by (vm_compute; discriminate).
  assert (H5 : 45 <= 60) by (vm_compute; discriminate).
  repeat (split; [assumption |]).
  exact (comfort_zone_returns_excellent 205 200 22 45 H1 H2 H3 H4 H5).
Defined.

(** X7.  No label is dead: each of the six labels is returned for some
    reading. *)
Theorem every_label_is_returned (key : string) :
  In key canonical_order ->
  exists mq135Raw baseline temp humidity,
    getEnvironmentCondition mq135Raw baseline temp humidity = key.
Proof.
  intros H. simpl in H.
  destruct H as [<- | [<- | [<- | [<- | [<- | [<- | []]]]]]].
  - exists 200, 200, 22, 45. vm_compute. reflexivity.
  - exists 220, 200, 22, 45. vm_compute. reflexivity.
  - exists 220, 200, 0, 45. vm_compute. reflexivity.
  - exists 265, 200, 0, 45. vm_compute. reflexivity.
  - exists 306, 200, 26.70, 52.00. vm_compute. reflexivity.
  - exists 400, 200, 22, 45. vm_compute. reflexivity.
Qed.

Lemma every_label_is_returned_witness :
  In "suitable" canonical_order /\
  exists mq135Raw baseline temp humidity,
    getEnvironmentCondition mq135Raw baseline temp humidity = "suitable".
Proof.
  assert (H : In "suitable" canonical_order) by (simpl; tauto).
  split; [exact H | exact (every_label_is_returned "suitable" H)].
Defined.

(** X8.  The one-sided degrees are monotone: [hazardous] does not decrease
    and the AQI [excellent] does not increase when the deviation grows in
    absolute value; [hot] does not decrease and [cold] does not increase
    with the temperature; [veryHumid] does not decrease and [dry] does not
    increase with the humidity. *)
Theorem one_sided_degrees_monotone (d1 d2 t1 t2 h1 h2 : Q) :
  Math.abs d1 <= Math.abs d2 -> t1 <= t2 -> h1 <= h2 ->
  Aqi.hazardous (fuzzyLogic.aqiMembership d1) <=
    Aqi.hazardous (fuzzyLogic.aqiMembership d2) /\
  Aqi.excellent (fuzzyLogic.aqiMembership d2) <=
    Aqi.excellent (fuzzyLogic.aqiMembership d1) /\
  Temp.hot (fuzzyLogic.tempMembership t1) <=
    Temp.hot (fuzzyLogic.tempMembership t2) /\
  Temp.cold (fuzzyLogic.tempMembership t2) <=
    Temp.cold (fuzzyLogic.tempMembership t1) /\
  Hum.veryHumid (fuzzyLogic.humidityMembership h1) <=
    Hum.veryHumid (fuzzyLogic.humidityMembership h2) /\
  Hum.dry (fuzzyLogic.humidityMembership h2) <=
    Hum.dry (fuzzyLogic.humidityMembership h1).
Proof.
  unfold_memberships.
  generalize (Math.abs d1) (Math.abs d2). intros a1 a2 Ha Ht Hh.
  repeat split; js_arith.
Qed.

Lemma one_sided_degrees_monotone_witness :
  Math.abs 106 <= Math.abs (-150) /\ 22 <= 35 /\ 45 <= 80 /\
  Aqi.hazardous (fuzzyLogic.aqiMembership 106) <=
    Aqi.hazardous (fuzzyLogic.aqiMembership (-150)).
Proof.
  assert (H1 : Math.abs 106 <= Math.abs (-150)) by (vm_compute; discriminate).
  assert (H2 : 22 <= 35) by (vm_compute; discriminate).
  assert (H3 : 45 <= 80) by (vm_compute; discriminate).
  repeat (split; [assumption |]).
  exact (proj1 (one_sided_degrees_monotone 106 (-150) 22 35 45 80 H1 H2 H3)).
Defined.

(** * Further properties of the presentation lookup *)

(** X9.  The classifier only returns labels that [details] owns: the
    lookup on the returned label is its own entry, never the fallback
    after [||], an inherited member or [undefined]. *)
Theorem classified_label_has_own_entry
  (mq135Raw baseline temp humidity : Q) :
  exists e,
    Presentation.own Presentation.details
      (getEnvironmentCondition mq135Raw baseline temp humidity) = Some e /\
    Presentation.getConditionDetails
      (getEnvironmentCondition mq135Raw baseline temp humidity) =
    Presentation.Entry e.
Proof.
  apply getConditionDetails_recognized, getEnvironmentCondition_recognized.
Qed.

(** X10.  The lookup never returns [undefined]: whatever the label, the
    result is truthy. *)
Theorem getConditionDetails_truthy (condition : string) :
  Presentation.truthy (Presentation.getConditionDetails condition) = true.
Proof.
  unfold Presentation.getConditionDetails, Presentation.or.
  destruct (Presentation.truthy
              (Presentation.get Presentation.details condition)) eqn:E.
  - exact E.
  - reflexivity.
Qed.

(** X11.  What the lookup returns, label by label: a recognized label
    gives its own entry, any other label that names a property of
    [Object.prototype] gives that inherited member, and every remaining
    label gives the moderate entry. *)
Theorem getConditionDetails_cases (condition : string) :
  (In condition Presentation.recognized /\
   exists e, Presentation.own Presentation.details condition = Some e /\
             Presentation.getConditionDetails condition =
             Presentation.Entry e) \/
  (~ In condition Presentation.recognized /\
   In condition Presentation.Object_prototype /\
   Presentation.getConditionDetails condition =
   Presentation.Inherited condition) \/
  (~ In condition Presentation.recognized /\
   ~ In condition Presentation.Object_prototype /\
   Presentation.own Presentation.details "moderate" <> None /\
   Presentation.getConditionDetails condition =
   Presentation.getConditionDetails "moderate").
Proof.
  destruct (in_dec string_dec condition Presentation.recognized) as [R | R].
  - left. split; [exact R | now apply getConditionDetails_recognized].
  - right.
    destruct (in_dec string_dec condition Presentation.Object_prototype)
      as [P | P].
    + left. repeat split; trivial.
      unfold Presentation.getConditionDetails, Presentation.get.
      destruct (Presentation.own Presentation.details condition) eqn:E.
      * exfalso. apply R, own_recognized. congruence.
      * assert (X : existsb (String.eqb condition)
                      Presentation.Object_prototype = true).
        { apply existsb_exists. exists condition.
          split; [exact P | apply String.eqb_refl]. }
        rewrite X. reflexivity.
    + right. repeat split; trivial.
      * vm_compute. discriminate.
      * now apply getConditionDetails_fallback.
Qed.

(** X12.  The six recognized labels have pairwise different
    presentations: the lookup is injective on them. *)
Theorem recognized_presentations_differ (k1 k2 : string) :
  In k1 Presentation.recognized -> In k2 Presentation.recognized ->
  Presentation.getConditionDetails k1 = Presentation.getConditionDetails k2 ->
  k1 = k2.
Proof.
  intros H1 H2. simpl in H1, H2.
  destruct H1 as [<- | [<- | [<- | [<- | [<- | [<- | []]]]]]];
  destruct H2 as [<- | [<- | [<- | [<- | [<- | [<- | []]]]]]];
  vm_compute; intros E; first [reflexivity | discriminate E].
Qed.

Lemma recognized_presentations_differ_witness :
  In "poor" Presentation.recognized /\
  Presentation.getConditionDetails "poor" =
  Presentation.getConditionDetails "poor" /\ "poor" = "poor".
Proof.
  assert (H : In "poor" Presentation.recognized) by (simpl; tauto).
  split; [exact H | split; [reflexivity |]].
  exact (recognized_presentations_differ "poor" "poor" H H eq_refl).
Defined.

(** * The component *)

(** ** [trim] and blank strings *)

Lemma trimStart_nil_iff (s : JsString.t) :
  JsString.trimStart s = [] <-> forallb JsString.isWhiteSpace s = true.
Proof.
  induction s as [| c s IH]; simpl.
  - tauto.
  - destruct (JsString.isWhiteSpace c); simpl.
    + exact IH.
    + split; discriminate.
Qed.

Lemma truthy_false_iff (s : JsString.t) : JsString.truthy s = false <-> s = [].
Proof. destruct s; simpl; split; congruence. Qed.

(** A string trims to the empty string exactly when all its code units are
    white space. *)
Lemma trim_truthy (s : JsString.t) :
  JsString.truthy (JsString.trim s) =
  negb (forallb JsString.isWhiteSpace s).
Proof.
  unfold JsString.trim, JsString.trimEnd.
  destruct (forallb JsString.isWhiteSpace s) eqn:E; simpl.
  - apply trimStart_nil_iff in E. rewrite E. reflexivity.
  - destruct (JsString.trimStart s) as [| c r] eqn:T.
    + apply trimStart_nil_iff in T. congruence.
    + assert (W : JsString.isWhiteSpace c = false).
      { clear E. revert T. induction s as [| d s IH]; simpl; [discriminate |].
        destruct (JsString.isWhiteSpace d) eqn:D; [exact IH |].
        intros [= -> _]. exact D. }
      destruct (JsString.truthy (rev (JsString.trimStart (rev (c :: r)))))
        eqn:X; [reflexivity |].
      apply truthy_false_iff in X.
      apply (f_equal (@rev N)) in X. rewrite rev_involutive in X. simpl in X.
      apply trimStart_nil_iff in X.
      rewrite forallb_app in X. simpl in X. rewrite W in X.
      rewrite andb_false_r in X. discriminate.
Qed.

Lemma trim_truthy_nonempty (s : JsString.t) :
  JsString.truthy (JsString.trim s) = true -> JsString.truthy s = true.
Proof.
  rewrite trim_truthy. destruct s; [discriminate | reflexivity].
Qed.

(** ** Handlers *)

(** X13.  Connecting with an address field that is empty or holds white
    space only changes nothing. *)
Theorem blank_address_is_ignored (s : App.state) :
  forallb JsString.isWhiteSpace (App.inputIp s) = true ->
  App.handleIpChange s = s /\ App.onKeyPress "Enter" s = s.
Proof.
  intros H. unfold App.onKeyPress, App.handleIpChange. simpl.
  rewrite trim_truthy, H. split; reflexivity.
Qed.

(** Two spaces and a tab typed into the initial form. *)
Lemma blank_address_is_ignored_witness :
  forallb JsString.isWhiteSpace [32; 32; 9]%N = true /\
  App.handleIpChange (App.setInputIp [32; 32; 9]%N App.initial) =
  App.setInputIp [32; 32; 9]%N App.initial.
Proof.
  split; [reflexivity |].
  exact (proj1 (blank_address_is_ignored
                  (App.setInputIp [32; 32; 9]%N App.initial) eq_refl)).
Defined.

(** X14.  Connecting with an address that holds a code unit other than
    white space stores the typed text as it is, untrimmed, and shows the
    connecting screen; once the effect has run, the dashboard shows the
    presentation of poor for the simulated reading, the address as
    connection badge, a plus sign before the deviation and no error
    banner. *)
Theorem accepted_address_connects (s : App.state) :
  forallb JsString.isWhiteSpace (App.inputIp s) = false ->
  App.ipAddress (App.handleIpChange s) = App.inputIp s /\
  App.render (App.handleIpChange s) = App.ConnectingView (App.inputIp s) /\
  exists e,
    Presentation.own Presentation.details "poor" = Some e /\
    App.render (App.effect (App.handleIpChange s)) =
    App.DashboardView (Presentation.Entry e) (Some (App.inputIp s)) "+" None.
Proof.
  intros H.
  assert (T : JsString.truthy (JsString.trim (App.inputIp s)) = true)
    by (rewrite trim_truthy, H; reflexivity).
  unfold App.handleIpChange. rewrite T.
  split; [reflexivity | split; [reflexivity |]].
  unfold App.effect. cbn [App.isConfigured App.ipAddress andb].
  rewrite (trim_truthy_nonempty _ T).
  eexists. split; [reflexivity |]. vm_compute. reflexivity.
Qed.

(** The default address of the form, with a space typed before it. *)
Lemma accepted_address_connects_witness :
  forallb JsString.isWhiteSpace
    (App.inputIp
       (App.setInputIp (32%N :: JsString.of_ascii "192.168.4.1") App.initial))
  = false /\
  App.ipAddress
    (App.handleIpChange
       (App.setInputIp (32%N :: JsString.of_ascii "192.168.4.1") App.initial))
  = 32%N :: JsString.of_ascii "192.168.4.1".
Proof.
  split; [reflexivity |].
  exact (proj1 (accepted_address_connects
                  (App.setInputIp (32%N :: JsString.of_ascii "192.168.4.1")
                     App.initial) eq_refl)).
Defined.

(** ** States the component can reach *)

Lemma invariant_initial : invariant App.initial.
Proof.
  unfold invariant; simpl. repeat split; auto; discriminate.
Qed.

Lemma invariant_handleIpChange s :
  invariant s -> invariant (App.handleIpChange s).
Proof.
  intros I. unfold App.handleIpChange.
  destruct (JsString.truthy (JsString.trim (App.inputIp s))) eqn:T;
    [| exact I].
  unfold invariant; simpl. repeat split; auto.
Qed.

Lemma invariant_handle s e : invariant s -> invariant (App.handle s e).
Proof.
  intros I. destruct e as [v | key | | |]; simpl.
  - destruct I as (I1 & I2 & I3 & I4). unfold invariant; simpl. auto.
  - unfold App.onKeyPress. destruct (String.eqb key "Enter");
      [now apply invariant_handleIpChange | exact I].
  - now apply invariant_handleIpChange.
  - destruct I as (I1 & I2 & I3 & I4). unfold invariant; simpl.
    repeat split; auto; discriminate.
  - destruct I as (I1 & I2 & I3 & I4). unfold invariant; simpl. auto.
Qed.

Lemma invariant_run es : forall s, invariant s -> invariant (App.run s es).
Proof.
  unfold App.run. induction es as [| e es IH]; intros s I; simpl.
  - exact I.
  - apply IH, invariant_handle, I.
Qed.

(** The dashboard for the simulated reading. *)
Lemma render_simulated s :
  App.isConfigured s = true -> App.data s = Some App.simulatedData ->
  exists e,
    Presentation.own Presentation.details "poor" = Some e /\
    App.render s =
    App.DashboardView (Presentation.Entry e)
      (if App.connected s then Some (App.ipAddress s) else None) "+"
      (match App.error s with
       | Some msg => if String.eqb msg "" then None else Some msg
       | None => None
       end).
Proof.
  intros C D. unfold App.render. rewrite C, D. cbn [negb].
  eexists. split; [reflexivity |].
  assert (E : getEnvironmentCondition (App.mq135 App.simulatedData)
                (App.baseline App.simulatedData)
                (App.temperature App.simulatedData)
                (App.humidity App.simulatedData) = "poor")
    by (vm_compute; reflexivity).
  cbv zeta. rewrite E. reflexivity.
Qed.

(** X15.  Whatever the sequence of events since the component was mounted,
    the dashboard, when it is the screen shown, displays the presentation
    of poor with the address as connection badge, a plus sign before the
    deviation and no error banner: the "Disconnected" badge and the error
    banner are never rendered. *)
Theorem dashboard_is_connected_and_poor
  (es : list App.event) (conditionDetails : Presentation.jsvalue)
  (badge : option JsString.t) (sign : string) (banner : option string) :
  App.render (App.run App.initial es) =
    App.DashboardView conditionDetails badge sign banner ->
  (exists e, Presentation.own Presentation.details "poor" = Some e /\
             conditionDetails = Presentation.Entry e) /\
  badge = Some (App.ipAddress (App.run App.initial es)) /\
  sign = "+" /\ banner = None.
Proof.
  destruct (invariant_run es _ invariant_initial) as (I1 & I2 & I3 & _).
  set (s := App.run App.initial es) in *.
  destruct (App.isConfigured s) eqn:C.
  - destruct I3 as [D | D].
    + unfold App.render. rewrite C, D. discriminate.
    + destruct (render_simulated s C D) as (e & He & R).
      rewrite R, I1, I2, D. intros [= <- <- <- <-].
      split; [exists e; split; [exact He | reflexivity] | repeat split].
  - unfold App.render. rewrite C. discriminate.
Qed.

(** Connect with the default address, then the first fetch. *)
Lemma dashboard_is_connected_and_poor_witness :
  exists conditionDetails,
    App.render (App.run App.initial [App.ClickConnect; App.Fetch]) =
    App.DashboardView conditionDetails
      (Some (JsString.of_ascii "192.168.4.1")) "+" None /\
    exists e, Presentation.own Presentation.details "poor" = Some e /\
              conditionDetails = Presentation.Entry e.
Proof.
  eexists. split; [vm_compute; reflexivity |].
  refine (proj1 (dashboard_is_connected_and_poor
                   [App.ClickConnect; App.Fetch] _ _ _ _ _)).
  vm_compute. reflexivity.
Defined.

(** X16.  In every state the component can reach, a configured component
    has a non-empty address: the conjunct [ipAddress] of the guard
    [isConfigured && ipAddress] of the effect never decides, and the effect
    fetches exactly when the component is configured. *)
Theorem effect_guard_is_isConfigured (es : list App.event) :
  App.isConfigured (App.run App.initial es)
    && JsString.truthy (App.ipAddress (App.run App.initial es)) =
  App.isConfigured (App.run App.initial es) /\
  App.effect (App.run App.initial es) =
  if App.isConfigured (App.run App.initial es)
  then App.fetchSensorData (App.run App.initial es)
  else App.run App.initial es.
Proof.
  destruct (invariant_run es _ invariant_initial) as (_ & _ & _ & I4).
  set (s := App.run App.initial es) in *. unfold App.effect.
  destruct (App.isConfigured s); simpl; [| split; reflexivity].
  rewrite (trim_truthy_nonempty _ (I4 eq_refl)). split; reflexivity.
Qed.

(** X17.  Reconfiguring always brings the setup form back with the typed
    address intact and keeps the stored address, also right after a
    connect, accepted or not. *)
Theorem reconfigure_returns_to_setup (s : App.state) :
  App.render (App.handleReconfigure s) = App.SetupView (App.inputIp s) /\
  App.ipAddress (App.handleReconfigure s) = App.ipAddress s /\
  App.render (App.handleReconfigure (App.handleIpChange s)) =
  App.SetupView (App.inputIp s) /\
  App.handleReconfigure (App.handleReconfigure s) = App.handleReconfigure s.
Proof.
  repeat split.
  unfold App.handleIpChange.
  destruct (JsString.truthy (JsString.trim (App.inputIp s))); reflexivity.
Qed.

(** * More regimes of the classifier *)

Lemma aqi_poor_plateau d :
  120 <= Math.abs d -> Math.abs d < 150 ->
  let a := fuzzyLogic.aqiMembership d in
  Aqi.excellent a == 0 /\ Aqi.good a == 0 /\ Aqi.moderate a == 0 /\
  Aqi.poor a == 1.
Proof.
  cbv zeta. unfold_memberships. generalize (Math.abs d). intros a H1 H2.
  repeat split; js_arith.
Qed.

Lemma aqi_moderate_plateau d :
  60 <= Math.abs d -> Math.abs d < 80 ->
  let a := fuzzyLogic.aqiMembership d in
  Aqi.excellent a == 0 /\ Aqi.good a == 0 /\ Aqi.moderate a == 1.
Proof.
  cbv zeta. unfold_memberships. generalize (Math.abs d). intros a H1 H2.
  repeat split; js_arith.
Qed.

Lemma aqi_up_to_130 d :
  Math.abs d <= 130 ->
  Aqi.hazardous (fuzzyLogic.aqiMembership d) == 0.
Proof.
  unfold_memberships. generalize (Math.abs d). intros a H. js_arith.
Qed.

Lemma aqi_up_to_70 d :
  Math.abs d <= 70 -> Aqi.poor (fuzzyLogic.aqiMembership d) == 0.
Proof.
  unfold_memberships. generalize (Math.abs d). intros a H. js_arith.
Qed.

Lemma temp_off_plateau temp :
  temp < 18 \/ 26 < temp ->
  Temp.comfortable (fuzzyLogic.tempMembership temp) < 1.
Proof. intros [H | H]; unfold_memberships; js_arith. Qed.

(** The activations as functions of the computed deviation lie in
    [0,1]. *)
Lemma activationsOfDeviation_range deviation temp humidity :
  let c := activationsOfDeviation deviation temp humidity in
  unit_interval (Cond.excellent c) /\ unit_interval (Cond.good c) /\
  unit_interval (Cond.suitable c) /\ unit_interval (Cond.moderate c) /\
  unit_interval (Cond.poor c) /\ unit_interval (Cond.hazardous c).
Proof.
  unfold activationsOfDeviation.
  destruct (aqiMembership_range deviation) as (?&?&?&?&?).
  destruct (tempMembership_range temp) as (?&[? _]&[? _]&?).
  destruct (humidityMembership_range humidity) as (?&[? _]&[? _]&?).
  now apply conditions_range.
Qed.

(** [getEnvironmentCondition] is [conditionOfDeviation] at the difference
    of the two gas values. *)
Lemma getEnvironmentCondition_of_deviation raw base temp humidity :
  getEnvironmentCondition raw base temp humidity =
  conditionOfDeviation (raw - base) temp humidity.
Proof. reflexivity. Qed.

Ltac deviation_fact :=
  unfold activationsOfDeviation, conditions;
  cbn [Cond.excellent Cond.good Cond.suitable Cond.moderate Cond.poor
       Cond.hazardous];
  js_arith.

(** X18.  When the deviation that [getEnvironmentCondition] has computed
    is at least 120 and less than 150 in absolute value, the label is
    poor, unless the room is both at 40 degrees or more and at 90 %
    humidity or more. *)
Theorem poor_plateau_returns_poor (deviation temp humidity : Q) :
  120 <= Math.abs deviation ->
  Math.abs deviation < 150 ->
  temp < 40 \/ humidity < 90 ->
  conditionOfDeviation deviation temp humidity = "poor".
Proof.
  intros Hd1 Hd2 Hth.
  destruct (aqi_poor_plateau _ Hd1 Hd2) as (Ae & Ag & Am & Ap).
  destruct (aqiMembership_range deviation) as (_ & _ & _ & _ & [Ah0 Ah1]).
  destruct (tempMembership_range temp) as (Tc & [Tf _] & [Tw _] & [Th Th1]).
  destruct (humidityMembership_range humidity)
    as (Hdry & [Hc _] & [Hh _] & [Hv Hv1]).
  destruct (activationsOfDeviation_range deviation temp humidity)
    as (_ & _ & _ & _ & _ & [_ Z1]).
  set (c := activationsOfDeviation deviation temp humidity) in *.
  assert (E : Cond.excellent c <= 0) by (subst c; deviation_fact).
  assert (G : Cond.good c <= 0) by (subst c; deviation_fact).
  assert (S : Cond.suitable c <= 0) by (subst c; deviation_fact).
  assert (P : Cond.poor c == 1) by (subst c; deviation_fact).
  assert (M : 0 <= Cond.moderate c /\ Cond.moderate c < 1).
  { destruct Hth as [Ht | Hh90].
    - pose proof (temp_below_40 _ Ht). subst c. split; deviation_fact.
    - pose proof (hum_below_90 _ Hh90). subst c. split; deviation_fact. }
  destruct M as [M0 M1].
  unfold conditionOfDeviation. fold c.
  destruct (Qlt_le_dec 0 (Cond.moderate c)); scan; reflexivity.
Qed.

(** A computed deviation of -130 in an ordinary room. *)
Lemma poor_plateau_returns_poor_witness :
  120 <= Math.abs (-130) /\ Math.abs (-130) < 150 /\
  (22 < 40 \/ 45 < 90) /\
  conditionOfDeviation (-130) 22 45 = "poor".
Proof.
  assert (H1 : 120 <= Math.abs (-130)) by (vm_compute; discriminate).
  assert (H2 : Math.abs (-130) < 150) by (vm_compute; reflexivity).
  assert (H3 : 22 < 40 \/ 45 < 90) by (left; reflexivity).
  repeat (split; [assumption |]).
  exact (poor_plateau_returns_poor (-130) 22 45 H1 H2 H3).
Defined.

Lemma aqi_40_to_80 d :
  40 < Math.abs d -> Math.abs d < 80 ->
  let a := fuzzyLogic.aqiMembership d in
  Aqi.excellent a == 0 /\ 0 <= Aqi.good a /\
  Aqi.good a < Aqi.moderate a /\ 0 < Aqi.moderate a /\
  Aqi.poor a <= Aqi.moderate a /\ Aqi.hazardous a == 0.
Proof.
  cbv zeta. unfold_memberships. generalize (Math.abs d). intros a H1 H2.
  repeat split; js_arith.
Qed.

Lemma aqi_10_to_40 d :
  10 < Math.abs d -> Math.abs d <= 40 ->
  let a := fuzzyLogic.aqiMembership d in
  0 <= Aqi.excellent a /\ Aqi.excellent a < Aqi.good a /\
  Aqi.moderate a <= Aqi.good a /\ Aqi.poor a == 0 /\
  Aqi.hazardous a == 0.
Proof.
  cbv zeta. unfold_memberships. generalize (Math.abs d). intros a H1 H2.
  repeat split; js_arith.
Qed.

(** X19.  When the deviation that [getEnvironmentCondition] has computed
    is more than 40 and less than 80 in absolute value and the
    temperature is comfortable (18 to 26 degrees), the label is suitable,
    whatever the humidity: suitable and moderate tie and suitable comes
    first. *)
Theorem elevated_deviation_comfortable_returns_suitable
  (deviation temp humidity : Q) :
  40 < Math.abs deviation ->
  Math.abs deviation < 80 ->
  18 <= temp -> temp <= 26 ->
  conditionOfDeviation deviation temp humidity = "suitable" /\
  Cond.suitable (activationsOfDeviation deviation temp humidity) ==
  Cond.moderate (activationsOfDeviation deviation temp humidity).
Proof.
  intros Hd1 Hd2 Ht1 Ht2.
  destruct (aqi_40_to_80 _ Hd1 Hd2) as (Ae & Ag0 & Ag & Am & Ap & Ah).
  destruct (aqiMembership_range deviation)
    as (_ & _ & [_ Am1] & [Ap0 _] & _).
  destruct (temp_plateau _ Ht1 Ht2) as (Tf & Th).
  destruct (tempMembership_range temp) as (Tc & _ & [Tw _] & _).
  destruct (humidityMembership_range humidity)
    as (Hdry & [Hc _] & [Hh _] & [Hv Hv1]).
  set (c := activationsOfDeviation deviation temp humidity) in *.
  set (am := Aqi.moderate (fuzzyLogic.aqiMembership deviation)) in *.
  assert (E : Cond.excellent c <= 0) by (subst c; deviation_fact).
  assert (G : Cond.good c < am) by (subst c am; deviation_fact).
  assert (S : Cond.suitable c == am) by (subst c am; deviation_fact).
  assert (M : Cond.moderate c == am) by (subst c am; deviation_fact).
  assert (P : Cond.poor c <= am) by (subst c am; deviation_fact).
  assert (Z : Cond.hazardous c <= am) by (subst c am; deviation_fact).
  split; [| now rewrite S, M].
  unfold conditionOfDeviation. fold c.
  destruct (Qlt_le_dec 0 (Cond.good c)); scan; reflexivity.
Qed.

(** A computed deviation of 65 at 22 degrees. *)
Lemma elevated_deviation_comfortable_returns_suitable_witness :
  40 < Math.abs 65 /\ Math.abs 65 < 80 /\ 18 <= 22 /\ 22 <= 26 /\
  conditionOfDeviation 65 22 45 = "suitable".
Proof.
  assert (H1 : 40 < Math.abs 65) by (vm_compute; reflexivity).
  assert (H2 : Math.abs 65 < 80) by (vm_compute; reflexivity).
  assert (H3 : 18 <= 22) by (vm_compute; discriminate).
  assert (H4 : 22 <= 26) by (vm_compute; discriminate).
  repeat (split; [assumption |]).
  exact (proj1 (elevated_deviation_comfortable_returns_suitable
                  65 22 45 H1 H2 H3 H4)).
Defined.

(** X20.  When the deviation that [getEnvironmentCondition] has computed
    is at least 60 and less than 80 in absolute value and the temperature
    is below 18 or above 26 degrees, the label is moderate, whatever the
    humidity. *)
Theorem moderate_plateau_returns_moderate (deviation temp humidity : Q) :
  60 <= Math.abs deviation ->
  Math.abs deviation < 80 ->
  temp < 18 \/ 26 < temp ->
  conditionOfDeviation deviation temp humidity = "moderate".
Proof.
  intros Hd1 Hd2 Ht.
  destruct (aqi_moderate_plateau _ Hd1 Hd2) as (Ae & Ag & Am).
  pose proof (temp_off_plateau _ Ht) as Tf1.
  destruct (tempMembership_range temp) as (Tc & [Tf _] & [Tw _] & _).
  destruct (humidityMembership_range humidity)
    as (Hdry & [Hc _] & [Hh _] & [Hv Hv1]).
  destruct (activationsOfDeviation_range deviation temp humidity)
    as (_ & _ & _ & _ & [_ P1] & [_ Z1]).
  set (c := activationsOfDeviation deviation temp humidity) in *.
  assert (E : Cond.excellent c <= 0) by (subst c; deviation_fact).
  assert (G : Cond.good c <= 0) by (subst c; deviation_fact).
  assert (S : 0 <= Cond.suitable c /\ Cond.suitable c < 1)
    by (subst c; split; deviation_fact).
  assert (M : Cond.moderate c == 1) by (subst c; deviation_fact).
  destruct S as [S0 S1].
  unfold conditionOfDeviation. fold c.
  destruct (Qlt_le_dec 0 (Cond.suitable c)); scan; reflexivity.
Qed.

(** A computed deviation of 65 at 30 degrees. *)
Lemma moderate_plateau_returns_moderate_witness :
  60 <= Math.abs 65 /\ Math.abs 65 < 80 /\ (30 < 18 \/ 26 < 30) /\
  conditionOfDeviation 65 30 45 = "moderate".
Proof.
  assert (H1 : 60 <= Math.abs 65) by (vm_compute; discriminate).
  assert (H2 : Math.abs 65 < 80) by (vm_compute; reflexivity).
  assert (H3 : 30 < 18 \/ 26 < 30) by (right; reflexivity).
  repeat (split; [assumption |]).
  exact (moderate_plateau_returns_moderate 65 30 45 H1 H2 H3).
Defined.

(** ** Labels that small deviations never get *)

(** When the scan returns the label of entry [i + 1], the entry before it
    is strictly weaker. *)
Lemma returned_beats_previous c i key prev pv kv :
  nth_error (Object_entries c) i = Some (prev, pv) ->
  nth_error (Object_entries c) (S i) = Some (key, kv) ->
  key <> "moderate" ->
  condition (maxCondition c) = key ->
  pv < kv.
Proof.
  intros Hp Hk Hne Hr. unfold maxCondition in Hr.
  destruct (reduce_scan (Object_entries c)
              {| condition := "moderate"; value := 0 |})
    as [[E _] | (j & Hj & _ & _ & Hearly)].
  - rewrite E in Hr. simpl in Hr. congruence.
  - rewrite Hr in Hj.
    assert (J : j = S i).
    { unfold Object_entries in Hj, Hk.
      do 6 (destruct j as [| j];
            [ do 6 (destruct i as [| i];
                    [cbn [nth_error] in Hj, Hk; congruence |]);
              destruct i; discriminate Hk |]).
      destruct j; discriminate Hj. }
    subst j. rewrite Hk in Hj. injection Hj as Hv.
    rewrite Hv. apply (Hearly i (prev, pv)); [lia | exact Hp].
Qed.

(** X21.  A gas reading at most 130 away from the baseline is never
    classified hazardous, whatever the temperature and the humidity: the
    hazardous activation is then at most the poor one, which comes
    first. *)
Theorem up_to_130_never_hazardous (mq135Raw baseline temp humidity : Q) :
  Math.abs (mq135Raw - baseline) <= 130 ->
  getEnvironmentCondition mq135Raw baseline temp humidity <> "hazardous".
Proof.
  intros Hd Hr.
  pose proof (aqi_up_to_130 _ Hd) as Ah.
  destruct (aqiMembership_range (mq135Raw - baseline))
    as (_ & _ & [Am0 _] & [Ap0 _] & _).
  destruct (tempMembership_range temp) as (_ & _ & _ & [Th _]).
  destruct (humidityMembership_range humidity) as (_ & _ & _ & [Hv _]).
  unfold getEnvironmentCondition in Hr.
  set (c := activations mq135Raw baseline temp humidity) in *.
  assert (Z : Cond.hazardous c <= Cond.poor c).
  { apply Qle_trans
      with (Aqi.poor (fuzzyLogic.aqiMembership (mq135Raw - baseline)));
      subst c; activation_fact. }
  assert (B : Cond.poor c < Cond.hazardous c).
  { apply (returned_beats_previous c 4 "hazardous" "poor");
      [reflexivity | reflexivity | discriminate | exact Hr]. }
  lra.
Qed.

Lemma up_to_130_never_hazardous_witness :
  Math.abs (330 - 200) <= 130 /\
  getEnvironmentCondition 330 200 45 95 <> "hazardous".
Proof.
  assert (H : Math.abs (330 - 200) <= 130) by (vm_compute; discriminate).
  split; [exact H | exact (up_to_130_never_hazardous 330 200 45 95 H)].
Defined.

(** X22.  A gas reading at most 70 away from the baseline is never
    classified poor either: the poor activation is then at most the
    moderate one, which comes first. *)
Theorem up_to_70_never_poor (mq135Raw baseline temp humidity : Q) :
  Math.abs (mq135Raw - baseline) <= 70 ->
  getEnvironmentCondition mq135Raw baseline temp humidity <> "poor".
Proof.
  intros Hd Hr.
  pose proof (aqi_up_to_70 _ Hd) as Ap.
  destruct (aqiMembership_range (mq135Raw - baseline))
    as (_ & [Ag0 _] & [Am0 _] & _).
  destruct (tempMembership_range temp) as (_ & _ & _ & [Th _]).
  destruct (humidityMembership_range humidity)
    as (Hdry & _ & [Hh _] & [Hv _]).
  unfold getEnvironmentCondition in Hr.
  set (c := activations mq135Raw baseline temp humidity) in *.
  assert (Z : Cond.poor c <= Cond.moderate c).
  { apply Qle_trans
      with (Aqi.moderate (fuzzyLogic.aqiMembership (mq135Raw - baseline)));
      subst c; activation_fact. }
  assert (B : Cond.moderate c < Cond.poor c).
  { apply (returned_beats_previous c 3 "poor" "moderate");
      [reflexivity | reflexivity | discriminate | exact Hr]. }
  lra.
Qed.

Lemma up_to_70_never_poor_witness :
  Math.abs (265 - 200) <= 70 /\
  getEnvironmentCondition 265 200 45 95 <> "poor".
Proof.
  assert (H : Math.abs (265 - 200) <= 70) by (vm_compute; discriminate).
  split; [exact H | exact (up_to_70_never_poor 265 200 45 95 H)].
Defined.

(** X23.  When the deviation that [getEnvironmentCondition] has computed
    is more than 10 and at most 40 in absolute value and the temperature
    is comfortable (18 to 26 degrees), the label is good, whatever the
    humidity. *)
Theorem mild_deviation_comfortable_returns_good
  (deviation temp humidity : Q) :
  10 < Math.abs deviation ->
  Math.abs deviation <= 40 ->
  18 <= temp -> temp <= 26 ->
  conditionOfDeviation deviation temp humidity = "good".
Proof.
  intros Hd1 Hd2 Ht1 Ht2.
  destruct (aqi_10_to_40 _ Hd1 Hd2) as (Ae0 & Ae & Am & Ap & Ah).
  destruct (aqiMembership_range deviation) as (_ & [_ Ag1] & [Am0 _] & _).
  destruct (temp_plateau _ Ht1 Ht2) as (Tf & Th).
  destruct (tempMembership_range temp) as (Tc & _ & [Tw _] & _).
  destruct (humidityMembership_range humidity)
    as (Hdry & [Hc _] & [Hh _] & [Hv Hv1]).
  set (c := activationsOfDeviation deviation temp humidity) in *.
  set (ae := Aqi.excellent (fuzzyLogic.aqiMembership deviation)) in *.
  set (ag := Aqi.good (fuzzyLogic.aqiMembership deviation)) in *.
  assert (E : Cond.excellent c <= ae) by (subst c ae; deviation_fact).
  assert (G : Cond.good c == ag) by (subst c ae ag; deviation_fact).
  assert (S : Cond.suitable c <= ag) by (subst c ag; deviation_fact).
  assert (M : Cond.moderate c <= ag) by (subst c ag; deviation_fact).
  assert (P : Cond.poor c <= ag) by (subst c ag; deviation_fact).
  assert (Z : Cond.hazardous c <= 0) by (subst c; deviation_fact).
  unfold conditionOfDeviation. fold c.
  destruct (Qlt_le_dec 0 (Cond.excellent c)); scan; reflexivity.
Qed.

(** A computed deviation of 20 at 22 degrees and 95 % humidity. *)
Lemma mild_deviation_comfortable_returns_good_witness :
  10 < Math.abs 20 /\ Math.abs 20 <= 40 /\ 18 <= 22 /\ 22 <= 26 /\
  conditionOfDeviation 20 22 95 = "good".
Proof.
  assert (H1 : 10 < Math.abs 20) by (vm_compute; reflexivity).
  assert (H2 : Math.abs 20 <= 40) by (vm_compute; discriminate).
  assert (H3 : 18 <= 22) by (vm_compute; discriminate).
  assert (H4 : 22 <= 26) by (vm_compute; discriminate).
  repeat (split; [assumption |]).
  exact (mild_deviation_comfortable_returns_good 20 22 95 H1 H2 H3 H4).
Defined.
